(** * Lighthouse: the stateful log-pattern observer

    A shallow embedding of [lighthouse/observers/stateful_log_pattern.py]
    and of [get_file_fingerprint] from [lighthouse/platform.py].

    One call of [observe] is modelled against a snapshot of the file
    system: the log files, the observer's JSON state file, and whether
    that state file can be written.  The observer's in-memory [self.state]
    dictionary is threaded explicitly, since the Python code mutates it
    in place while it classifies the rotation.

    Not modelled: logging, the [timestamp] field of [ObservationResult]
    (wall-clock time), and races between two system calls of one poll. *)

From Stdlib Require Import ZArith NArith Lia Bool.
From stdpp Require Import base option list strings gmap.

Local Open Scope Z_scope.

(** ** Python values and exceptions *)

(** The values that live in the observer's state dictionary: [None],
    integers, strings, and flat sequences of integers.  A fingerprint
    computed by [get_file_fingerprint] is a tuple; a fingerprint read back
    by [json.load] is a list.  Booleans, floats and nested containers do
    not occur in states the observer writes and are left out. *)
Inductive pyval : Type :=
  | VNone
  | VInt (z : Z)
  | VStr (s : string)
  | VTuple (l : list Z)
  | VList (l : list Z).

#[global] Instance pyval_eq_dec : EqDecision pyval.
Proof. solve_decision. Defined.

(** Python's [==] on these values: structural, and a tuple never equals a
    list, nor [None] a tuple. *)
Definition py_eq (a b : pyval) : bool := bool_decide (a = b).

(** What an object bound to [self.state] may be: [json.load] returns a
    dictionary for a JSON object and a plain value otherwise. *)
Inductive pyobj : Type :=
  | ODict (d : gmap string pyval)
  | OVal (v : pyval).

Inductive exn : Type :=
  | OSError (msg : string)
  | UnicodeDecodeError
  | JSONDecodeError
  | KeyError
  | TypeError
  | ValueError
  | AttributeError.

Inductive result (A : Type) : Type :=
  | Ok (a : A)
  | Raise (e : exn).
Arguments Ok {A} a.
Arguments Raise {A} e.

(** ** Text and bytes *)

(** A Python [str] is a sequence of Unicode code points. *)
Abbreviation text := (list N).
Abbreviation bytes := (list Byte.byte).

Definition LF : N := 10%N.
Definition CR : N := 13%N.

(** Literals: the characters of an ASCII string as code points, and the
    same string as the bytes of a file. *)
Definition str (s : string) : text :=
  map Ascii.N_of_ascii (String.list_ascii_of_string s).

Definition encode (s : string) : bytes := String.list_byte_of_string s.

(** ** The file system *)

(** A file at some path.  [identity] is what the platform reports for it:
    [(st_dev, st_ino)] on POSIX, [(volume, index_high, index_low)] on
    Windows, and [None] where no fingerprint can be produced (unsupported
    platform, pywin32 missing, or an error inside the [try] block).
    [read_error] is the exception that opening or reading it raises, if
    any (permission denied, an I/O error). *)
Record file : Type := File {
  identity : option (list Z);
  content : bytes;
  read_error : option exn
}.

(** [Path.stat().st_size] *)
Definition st_size (f : file) : Z := Z.of_nat (length (content f)).

(** platform.py: [get_file_fingerprint(path)] *)
Definition get_file_fingerprint (fs : gmap string file) (path : string) : pyval :=
  match fs !! path with
  | None => VNone
  | Some f =>
      match identity f with
      | Some t => VTuple t
      | None => VNone
      end
  end.

(** ** Rotation handlers *)

(** The three subclasses of [RotationHandler]. *)
Inductive RotationHandler : Type :=
  | NoRotationHandler
  | CopytruncateRotationHandler
  | MoveCreateRotationHandler.

(** [dict.get(key, default)] *)
Definition dict_get (d : gmap string pyval) (key : string) (dflt : pyval) : pyval :=
  default dflt (d !! key).

(** [NoRotationHandler.handle]: continue from the stored offset unless the
    file is now smaller than it.  [file_size < offset] raises [TypeError]
    when the stored offset is not a number; only [FileNotFoundError] is
    caught. *)
Definition no_rotation_handle (fs : gmap string file) (log_file : string)
    (state : gmap string pyval) : result Z :=
  let offset := dict_get state "offset" (VInt 0) in
  match fs !! log_file with
  | None => Ok 0
  | Some f =>
      match offset with
      | VInt o => if st_size f <? o then Ok 0 else Ok o
      | _ => Raise TypeError
      end
  end.

(** [CopytruncateRotationHandler.handle] *)
Definition copytruncate_handle (fs : gmap string file) (log_file : string)
    (state : gmap string pyval) : result Z :=
  Ok 0.

(** [MoveCreateRotationHandler.handle]: returns 0 and rebinds
    [state["fingerprint"]]. *)
Definition move_create_handle (fs : gmap string file) (log_file : string)
    (state : gmap string pyval) : result Z * gmap string pyval :=
  let current_fingerprint := get_file_fingerprint fs log_file in
  (Ok 0, <["fingerprint" := current_fingerprint]> state).

(** Dynamic dispatch of [handler.handle(log_file, state)]: the offset to
    use, and the state dictionary as the handler leaves it. *)
Definition handle (h : RotationHandler) (fs : gmap string file) (log_file : string)
    (state : gmap string pyval) : result Z * gmap string pyval :=
  match h with
  | NoRotationHandler => (no_rotation_handle fs log_file state, state)
  | CopytruncateRotationHandler => (copytruncate_handle fs log_file state, state)
  | MoveCreateRotationHandler => move_create_handle fs log_file state
  end.

(** ** RotationDetector *)

(** The rotated sibling's fingerprint, [None] when it does not exist. *)
Definition current_rotated_fingerprint (fs : gmap string file)
    (rotated_log_file : string) : pyval :=
  match fs !! rotated_log_file with
  | Some _ => get_file_fingerprint fs rotated_log_file
  | None => VNone
  end.

(** The [if] cascade of [detect_and_handle]: which handler is delegated to. *)
Definition detect (fs : gmap string file) (log_file rotated_log_file : string)
    (state : gmap string pyval) : RotationHandler :=
  let current_fingerprint := get_file_fingerprint fs log_file in
  let stored_fingerprint := dict_get state "fingerprint" VNone in
  let stored_rotated_fingerprint := dict_get state "rotated_fingerprint" VNone in
  if py_eq stored_fingerprint current_fingerprint then
    if negb (py_eq stored_rotated_fingerprint
               (current_rotated_fingerprint fs rotated_log_file))
    then CopytruncateRotationHandler
    else NoRotationHandler
  else MoveCreateRotationHandler.

(** [RotationDetector.detect_and_handle]: the stored identities are read
    first, then [state["rotated_fingerprint"]] is overwritten, then the
    chosen handler runs on the updated dictionary. *)
Definition detect_and_handle (fs : gmap string file) (log_file rotated_log_file : string)
    (state : gmap string pyval) : result Z * gmap string pyval :=
  let h := detect fs log_file rotated_log_file state in
  let state1 :=
    <["rotated_fingerprint" := current_rotated_fingerprint fs rotated_log_file]> state in
  handle h fs log_file state1.

(** ** Reading text: [open(..., encoding='utf-8', errors='ignore')] *)

Definition is_continuation_byte (b : N) : bool := ((128 <=? b) && (b <? 192))%N.

(** UTF-8 decoding with [errors='ignore']: a malformed sequence is dropped
    up to the byte that breaks it and decoding resumes there; a sequence
    cut off by the end of the data is dropped.  Overlong forms, surrogates
    and code points above U+10FFFF are malformed. *)
Fixpoint utf8_decode_ignore (s : bytes) : text :=
  match s with
  | [] => []
  | b0 :: s1 =>
      let ch := Byte.to_N b0 in
      if (ch <? 128)%N then ch :: utf8_decode_ignore s1
      else if (ch <? 224)%N then
        if (ch <? 194)%N then utf8_decode_ignore s1
        else
          match s1 with
          | [] => []
          | b1 :: s2 =>
              let ch2 := Byte.to_N b1 in
              if is_continuation_byte ch2
              then ((ch - 192) * 64 + (ch2 - 128))%N :: utf8_decode_ignore s2
              else utf8_decode_ignore s1
          end
      else if (ch <? 240)%N then
        match s1 with
        | [] => []
        | b1 :: s2 =>
            let ch2 := Byte.to_N b1 in
            if negb (is_continuation_byte ch2)
               || (if (ch2 <? 160)%N then (ch =? 224)%N else (ch =? 237)%N)
            then utf8_decode_ignore s1
            else
              match s2 with
              | [] => []
              | b2 :: s3 =>
                  let ch3 := Byte.to_N b2 in
                  if is_continuation_byte ch3
                  then ((ch - 224) * 4096 + (ch2 - 128) * 64 + (ch3 - 128))%N
                         :: utf8_decode_ignore s3
                  else utf8_decode_ignore s2
              end
        end
      else if (ch <? 245)%N then
        match s1 with
        | [] => []
        | b1 :: s2 =>
            let ch2 := Byte.to_N b1 in
            if negb (is_continuation_byte ch2)
               || (if (ch2 <? 144)%N then (ch =? 240)%N else (ch =? 244)%N)
            then utf8_decode_ignore s1
            else
              match s2 with
              | [] => []
              | b2 :: s3 =>
                  let ch3 := Byte.to_N b2 in
                  if negb (is_continuation_byte ch3) then utf8_decode_ignore s2
                  else
                    match s3 with
                    | [] => []
                    | b3 :: s4 =>
                        let ch4 := Byte.to_N b3 in
                        if is_continuation_byte ch4
                        then ((ch - 240) * 262144 + (ch2 - 128) * 4096
                              + (ch3 - 128) * 64 + (ch4 - 128))%N
                               :: utf8_decode_ignore s4
                        else utf8_decode_ignore s3
                    end
              end
        end
      else utf8_decode_ignore s1
  end.

(** Universal newlines (the default [newline=None]): ["\r\n"] and a lone
    ["\r"] are read as ["\n"]. *)
Fixpoint translate_newlines (t : text) : text :=
  match t with
  | [] => []
  | c :: r =>
      if (c =? CR)%N then
        match r with
        | d :: r' =>
            if (d =? LF)%N then LF :: translate_newlines r'
            else LF :: translate_newlines r
        | [] => [LF]
        end
      else c :: translate_newlines r
  end.

(** Lines keep their terminating ["\n"]; a last line without one is a line
    as it stands. *)
Fixpoint split_lines (t : text) : list text :=
  match t with
  | [] => []
  | c :: r =>
      if (c =? LF)%N then [c] :: split_lines r
      else
        match split_lines r with
        | [] => [[c]]
        | l :: ls => (c :: l) :: ls
        end
  end.

(** An open text file: the file and the byte position of the handle. *)
Record TextIO : Type := mkTextIO {
  raw : file;
  pos : Z
}.

#[global] Instance result_bind : MBind result :=
  fun A B f m => match m with Ok a => f a | Raise e => Raise e end.

(** [path.open('r', encoding='utf-8', errors='ignore')] *)
Definition open_text (f : file) : result TextIO :=
  match read_error f with
  | Some e => Raise e
  | None => Ok (mkTextIO f 0)
  end.

(** [f.seek(offset)]: a negative position is a [ValueError]; any other
    position is taken as it is, also past the end of the file. *)
Definition seek (h : TextIO) (offset : Z) : result TextIO :=
  if offset <? 0 then Raise ValueError else Ok (mkTextIO (raw h) offset).

(** [f.readlines()]: everything from the position to the end of the file;
    the handle is left at the end of the file, or where it was if that is
    further. *)
Definition readlines (h : TextIO) : list text * TextIO :=
  let data := drop (Z.to_nat (pos h)) (content (raw h)) in
  (split_lines (translate_newlines (utf8_decode_ignore data)),
   mkTextIO (raw h) (Z.max (pos h) (st_size (raw h)))).

(** [f.tell()] *)
Definition tell (h : TextIO) : Z := pos h.

(** The [with] block of [observe]: the new lines and the new offset. *)
Definition read_new_lines (f : file) (offset : Z) : result (list text * Z) :=
  h ← open_text f;
  h1 ← seek h offset;
  let '(lines, h2) := readlines h1 in
  Ok (lines, tell h2).

(** ** [str.strip()] *)

(** Python's whitespace code points ([str.isspace] on one character). *)
Definition is_space (c : N) : bool :=
  (((9 <=? c) && (c <=? 13)) || ((28 <=? c) && (c <=? 32))
   || (c =? 133) || (c =? 160) || (c =? 5760)
   || ((8192 <=? c) && (c <=? 8202))
   || (c =? 8232) || (c =? 8233) || (c =? 8239) || (c =? 8287) || (c =? 12288))%N.

Fixpoint lstrip (t : text) : text :=
  match t with
  | [] => []
  | c :: r => if is_space c then lstrip r else t
  end.

Definition rstrip (t : text) : text := reverse (lstrip (reverse t)).

Definition strip (t : text) : text := rstrip (lstrip t).

(** ** The persisted state file *)

(** JSON as [json.dump] writes it for a state dictionary and as
    [json.load] reads it back: a tuple is written as an array, and an
    array is read back as a list. *)
Inductive jval : Type :=
  | JNull
  | JInt (z : Z)
  | JStr (s : string)
  | JArr (l : list Z).

Inductive json : Type :=
  | JObject (o : gmap string jval)
  | JValue (v : jval).

Definition to_json (v : pyval) : jval :=
  match v with
  | VNone => JNull
  | VInt z => JInt z
  | VStr s => JStr s
  | VTuple l => JArr l
  | VList l => JArr l
  end.

Definition of_json (j : jval) : pyval :=
  match j with
  | JNull => VNone
  | JInt z => VInt z
  | JStr s => VStr s
  | JArr l => VList l
  end.

(** What is found at the state file's path, when something is. *)
Inductive state_file : Type :=
  | SFUnreadable (msg : string)  (* [open] raises [OSError] *)
  | SFNotUtf8                    (* the bytes are not UTF-8 *)
  | SFNotJson                    (* the text is not JSON; the empty file too *)
  | SFJson (j : json).

(** [with self.state_file.open('r', encoding='utf-8') as f: json.load(f)] *)
Definition json_load (sf : state_file) : result pyobj :=
  match sf with
  | SFUnreadable msg => Raise (OSError msg)
  | SFNotUtf8 => Raise UnicodeDecodeError
  | SFNotJson => Raise JSONDecodeError
  | SFJson (JObject o) => Ok (ODict (of_json <$> o))
  | SFJson (JValue v) => Ok (OVal (of_json v))
  end.

(** [json.dump(state, f)] *)
Definition json_dump (state : pyobj) : json :=
  match state with
  | ODict d => JObject (to_json <$> d)
  | OVal v => JValue (to_json v)
  end.

(** Substring test, Python's [needle in haystack] on two strings. *)
Fixpoint str_contains (needle hay : string) : bool :=
  String.prefix needle hay
  || match hay with
     | EmptyString => false
     | String _ rest => str_contains needle rest
     end.

(** [key in obj] for a string key: key membership for a dictionary,
    substring for a string, element membership for a sequence (of
    integers, so never), and a [TypeError] for [None] and integers. *)
Definition py_contains (key : string) (obj : pyobj) : result bool :=
  match obj with
  | ODict d => Ok (bool_decide (is_Some (d !! key)))
  | OVal (VStr s) => Ok (str_contains key s)
  | OVal (VTuple _) | OVal (VList _) => Ok false
  | OVal VNone | OVal (VInt _) => Raise TypeError
  end.

(** [obj[key] = v] for a string key: only a dictionary accepts it. *)
Definition py_setitem (obj : pyobj) (key : string) (v : pyval) : result pyobj :=
  match obj with
  | ODict d => Ok (ODict (<[key := v]> d))
  | OVal _ => Raise TypeError
  end.

(** ** The observer *)

Record Config : Type := mkConfig {
  name : string;
  state_dir : string;
  log_file : string;
  patterns : list text
}.

(** [Path(state_dir) / f'{name}.state.json'] *)
Definition state_file_path (config : Config) : string :=
  (state_dir config +:+ "/" +:+ name config +:+ ".state.json")%string.

(** [Path(str(self.log_file) + ".1")] *)
Definition rotated_log_file (config : Config) : string :=
  (log_file config +:+ ".1")%string.

Record Observer : Type := mkObserver {
  config : Config;
  state : pyobj
}.

(** The outside of one call: the log files by path, the state files by
    path, and whether the state directory can be created and written. *)
Record world : Type := mkWorld {
  files : gmap string file;
  state_files : gmap string state_file;
  state_writable : bool
}.

Definition default_state : gmap string pyval :=
  <["fingerprint" := VNone]> (<["offset" := VInt 0]> (<["rotated_fingerprint" := VNone]> ∅)).

(** The [try] block of [_load_state]. *)
Definition load_state_try (sf : state_file) : result pyobj :=
  st ← json_load sf;
  present ← py_contains "rotated_fingerprint" st;
  if negb present then py_setitem st "rotated_fingerprint" VNone else Ok st.

(** [Observer._load_state]: [except (json.JSONDecodeError, KeyError)]. *)
Definition _load_state (w : world) (config : Config) : result pyobj :=
  match state_files w !! state_file_path config with
  | None => Ok (ODict default_state)
  | Some sf =>
      match load_state_try sf with
      | Raise JSONDecodeError | Raise KeyError => Ok (ODict default_state)
      | r => r
      end
  end.

(** [Observer.__init__] *)
Definition new_Observer (w : world) (config : Config) : result Observer :=
  st ← _load_state w config;
  Ok (mkObserver config st).

(** [Observer._save_state]: any exception is logged and swallowed, and the
    file is then left as it was. *)
Definition _save_state (w : world) (o : Observer) : world :=
  if state_writable w
  then mkWorld (files w)
               (<[state_file_path (config o) := SFJson (json_dump (state o))]> (state_files w))
               (state_writable w)
  else w.

(** An [ObservationResult], without its timestamp.  The metadata
    dictionary holds a string, the text of an exception ([str(e)], kept
    here as the exception), a list of lines, or a count. *)
Inductive mdval : Type :=
  | MStr (s : string)
  | MErr (e : exn)
  | MLines (ls : list text)
  | MInt (z : Z).

Record ObservationResult : Type := mkResult {
  value : bool;
  metadata : gmap string mdval
}.

Section Observe.

(** [re.search(pattern, line)] as a truth value.  The regular-expression
    engine is not part of this program; every statement below holds for
    any engine. *)
Variable re_search : text -> text -> bool.

(** The inner [for pattern in self.patterns] loop with its [break]. *)
Fixpoint any_pattern (ps : list text) (line : text) : bool :=
  match ps with
  | [] => false
  | p :: ps' => if re_search p line then true else any_pattern ps' line
  end.

(** The outer [for line in lines] loop: [matched_lines]. *)
Fixpoint search_lines (ps : list text) (lines : list text) : list text :=
  match lines with
  | [] => []
  | line :: rest =>
      if any_pattern ps line
      then strip line :: search_lines ps rest
      else search_lines ps rest
  end.

(** The result built at the end of [observe]. *)
Definition report (o : Observer) (lines matched_lines : list text) : ObservationResult :=
  match matched_lines with
  | _ :: _ =>
      mkResult true
        (<["matched_lines" := MLines matched_lines]>
           (<["log_file" := MStr (log_file (config o))]> ∅))
  | [] =>
      mkResult false (<["lines_read" := MInt (Z.of_nat (length lines))]> ∅)
  end.

(** [Observer.observe]: the result (or the exception that escapes), the
    observer with [self.state] as the call leaves it, and the world. *)
Definition observe (w : world) (o : Observer)
    : result ObservationResult * Observer * world :=
  match files w !! log_file (config o) with
  | None =>
      (Ok (mkResult false (<["status" := MStr "file not found"]> ∅)), o, w)
  | Some f =>
      match state o with
      | OVal _ => (Raise AttributeError, o, w)
      | ODict st =>
          let '(r, st1) :=
            detect_and_handle (files w) (log_file (config o))
              (rotated_log_file (config o)) st in
          let o1 := mkObserver (config o) (ODict st1) in
          match r with
          | Raise e => (Raise e, o1, w)
          | Ok offset =>
              match read_new_lines f offset with
              | Raise e =>
                  (Ok (mkResult false (<["error" := MErr e]> ∅)), o1, w)
              | Ok (lines, new_offset) =>
                  let matched_lines := search_lines (patterns (config o)) lines in
                  let o2 :=
                    mkObserver (config o)
                      (ODict (<["offset" := VInt new_offset]> st1)) in
                  (Ok (report o lines matched_lines), o2, _save_state w o2)
              end
          end
      end
  end.

End Observe.

(** ** [Path.exists()] that raises *)

(** [Path.exists()] answers [False] only for the not-found kinds of
    [OSError]; every other one (a directory on the way that may not be
    searched, an I/O error, a name that is too long) is raised again, and
    [observe] calls it outside every [try]: on the log file first, then
    (in the classifier, before the state is touched) on the sibling.
    [stat_errors] holds the paths whose [stat] fails in that way; for all
    other paths the call goes on as in [observe]. *)
Definition observe_os (stat_errors : gmap string exn) (re_search : text -> text -> bool)
    (w : world) (o : Observer) : result ObservationResult * Observer * world :=
  match stat_errors !! log_file (config o) with
  | Some e => (Raise e, o, w)
  | None =>
      match files w !! log_file (config o), state o with
      | Some _, ODict _ =>
          match stat_errors !! rotated_log_file (config o) with
          | Some e => (Raise e, o, w)
          | None => observe re_search w o
          end
      | _, _ => observe re_search w o
      end
  end.

(** ** A regular-expression engine for patterns without metacharacters *)

Fixpoint starts_with (p t : text) : bool :=
  match p, t with
  | [], _ => true
  | _ :: _, [] => false
  | a :: p', b :: t' => (a =? b)%N && starts_with p' t'
  end.

(** [re.search] for a pattern made of literal characters only: does the
    pattern occur somewhere in the line?  Used to run the examples. *)
Fixpoint literal_search (p t : text) : bool :=
  starts_with p t
  || match t with
     | [] => false
     | _ :: t' => literal_search p t'
     end.

(** ** observers/log_pattern.py: the whole-file observer *)

(** [open(log_file, encoding='utf-8', errors='ignore')] and [f.read()]:
    the whole file as text. *)
Definition read_text (f : file) : result text :=
  h ← open_text f;
  Ok (translate_newlines (utf8_decode_ignore (content (raw h)))).

Section LogPattern.

Variable re_search : text -> text -> bool.

(** The [for pattern in patterns] loop: the patterns found in the text,
    in configuration order. *)
Fixpoint matching_patterns (ps : list text) (content : text) : list text :=
  match ps with
  | [] => []
  | p :: ps' =>
      if re_search p content
      then p :: matching_patterns ps' content
      else matching_patterns ps' content
  end.

(** [log_pattern.Observer.observe]: it keeps no state and writes nothing. *)
Definition log_pattern_observe (fs : gmap string file) (config : Config)
    : ObservationResult :=
  match fs !! log_file config with
  | None =>
      mkResult false
        (<["error" := MStr ("Log file not found: " +:+ log_file config)]> ∅)
  | Some f =>
      match read_text f with
      | Raise e => mkResult false (<["error" := MErr e]> ∅)
      | Ok content =>
          let matches := matching_patterns (patterns config) content in
          mkResult (0 <? Z.of_nat (length matches))
            (<["matched_patterns" := MLines matches]>
               (<["total_patterns" := MInt (Z.of_nat (length (patterns config)))]>
                  (<["log_file" := MStr (log_file config)]> ∅)))
      end
  end.

End LogPattern.

(** ** evaluators/pattern_match.py *)

Record AlertDecision : Type := mkDecision {
  should_alert : bool;
  severity : pyval;
  message : text;
  context : gmap string mdval
}.

(** [sep.join(items)] *)
Fixpoint py_join (sep : text) (items : list text) : text :=
  match items with
  | [] => []
  | x :: rest =>
      match rest with
      | [] => x
      | _ :: _ => x ++ sep ++ py_join sep rest
      end
  end.

Section Evaluate.

(** [str(e)], the text of an exception. *)
Variable exn_str : exn -> string.

(** What [join] iterates over: the elements of a list, the characters of a
    string; an integer is not iterable. *)
Definition join_items (v : mdval) : result (list text) :=
  match v with
  | MLines ls => Ok ls
  | MStr s => Ok ((fun c => [c]) <$> str s)
  | MErr e => Ok ((fun c => [c]) <$> str (exn_str e))
  | MInt _ => Raise TypeError
  end.

(** [PatternMatchEvaluator.evaluate] *)
Definition pattern_match_evaluate (config : gmap string pyval)
    (current : ObservationResult) (_history : list ObservationResult)
    : result AlertDecision :=
  let severity := dict_get config "severity" (VStr "medium") in
  if value current then
    let matched_patterns := default (MLines []) (metadata current !! "matched_patterns") in
    items ← join_items matched_patterns;
    Ok (mkDecision true severity
          (str "Pattern matched: " ++ py_join (str ", ") items)
          (metadata current))
  else
    Ok (mkDecision false severity (str "No pattern match") (metadata current)).

End Evaluate.

(** ** coordinator.py: one watcher's check cycle *)

(** What is found at the history file's path, when something is: a list of
    observations, or anything that makes loading raise. *)
Inductive history_file : Type :=
  | HFUnloadable
  | HFItems (items : list ObservationResult).

(** The outside of a check: the observer's world, the history files by
    path, the exception [mkdir] raises for the state directory (if any),
    and whether the history file can be opened for writing. *)
Record host : Type := mkHost {
  os_world : world;
  history_files : gmap string history_file;
  mkdir_error : option exn;
  history_writable : bool
}.

Record WatcherCoordinator (O E : Type) : Type := mkCoordinator {
  c_name : string;
  c_observer : O;
  c_evaluator : E;
  c_state_dir : string;
  c_history : list ObservationResult
}.
Arguments mkCoordinator {O E} _ _ _ _ _.
Arguments c_name {O E} _.
Arguments c_observer {O E} _.
Arguments c_evaluator {O E} _.
Arguments c_state_dir {O E} _.
Arguments c_history {O E} _.

Section Check.

Context {O E : Type}.

(** [str(e)], the text of an exception. *)
Variable exn_str : exn -> string.

(** An observation as [json.dump] writes it and [json.load] reads it back:
    the text of an error is a plain string afterwards. *)
Definition as_json (r : ObservationResult) : ObservationResult :=
  mkResult (value r)
    ((fun v => match v with MErr e => MStr (exn_str e) | _ => v end) <$> metadata r).

(** [self.observer.observe()] and [self.evaluator.evaluate(...)], for
    whichever observer and evaluator classes the watcher is built from. *)
Variable observer_observe : world -> O -> result ObservationResult * O * world.
Variable evaluator_evaluate :
  E -> ObservationResult -> list ObservationResult -> result AlertDecision.

(** [self.state_dir / f"{self.name}.history.json"] *)
Definition history_file_path (c : WatcherCoordinator O E) : string :=
  (c_state_dir c +:+ "/" +:+ c_name c +:+ ".history.json")%string.

(** [history[-100:]] *)
Definition recent_history (history : list ObservationResult) : list ObservationResult :=
  drop (length history - 100) history.

(** [WatcherCoordinator._load_history]: the history attribute after it ran. *)
Definition _load_history (h : host) (c : WatcherCoordinator O E) : list ObservationResult :=
  match history_files h !! history_file_path c with
  | None => []
  | Some HFUnloadable => []
  | Some (HFItems items) => items
  end.

(** [WatcherCoordinator.__init__] *)
Definition new_WatcherCoordinator (h : host) (name : string) (observer : O)
    (evaluator : E) (state_dir : string) : WatcherCoordinator O E :=
  let c := mkCoordinator name observer evaluator state_dir [] in
  mkCoordinator name observer evaluator state_dir (_load_history h c).

(** [WatcherCoordinator._save_history]: [mkdir] is outside the [try], the
    write is inside it. *)
Definition _save_history (h : host) (c : WatcherCoordinator O E) : result host :=
  match mkdir_error h with
  | Some e => Raise e
  | None =>
      if history_writable h
      then Ok (mkHost (os_world h)
                 (<[history_file_path c := HFItems (as_json <$> recent_history (c_history c))]>
                    (history_files h))
                 (mkdir_error h) (history_writable h))
      else Ok h
  end.

(** [WatcherCoordinator.check]: the decision to alert on (or [None], or
    the exception that escapes), the coordinator and the host afterwards. *)
Definition check (h : host) (c : WatcherCoordinator O E)
    : result (option AlertDecision) * WatcherCoordinator O E * host :=
  let '(r, observer1, w1) := observer_observe (os_world h) (c_observer c) in
  let c1 := mkCoordinator (c_name c) observer1 (c_evaluator c) (c_state_dir c) (c_history c) in
  let h1 := mkHost w1 (history_files h) (mkdir_error h) (history_writable h) in
  match r with
  | Raise e => (Raise e, c1, h1)
  | Ok observation =>
      match evaluator_evaluate (c_evaluator c) observation (c_history c) with
      | Raise e => (Raise e, c1, h1)
      | Ok decision =>
          let c2 :=
            mkCoordinator (c_name c) observer1 (c_evaluator c) (c_state_dir c)
              (c_history c ++ [observation]) in
          match _save_history h1 c2 with
          | Raise e => (Raise e, c2, h1)
          | Ok h2 =>
              (Ok (if should_alert decision then Some decision else None), c2, h2)
          end
      end
  end.

End Check.

(** * Example data *)

Definition nl : string := String (Ascii.ascii_of_nat 10) EmptyString.

Definition app_log : string := "/var/log/app.log".
Definition app_log_1 : string := "/var/log/app.log.1".

(** A log of ten bytes with a POSIX identity. *)
Definition ten_bytes : file := File (Some [2049; 131]) (encode "0123456789") None.

(** The first poll of a target whose log file exists and has an identity. *)
Definition fs_first_poll : gmap string file := {[ app_log := ten_bytes ]}.

(** A copy-truncate poll without size regression: the main file holds ten
    bytes, the stored offset is 4, and the sibling has a new identity. *)
Definition fs_sibling_replaced : gmap string file :=
  <[app_log_1 := File (Some [2049; 977]) (encode "0123") None]> {[ app_log := ten_bytes ]}.

Definition st_sibling_seen : gmap string pyval :=
  <["fingerprint" := VTuple [2049; 131]]>
    (<["offset" := VInt 4]> (<["rotated_fingerprint" := VTuple [2049; 640]]> ∅)).


(** The same file polled again with offsets 4 (kept) and 25 (reset). *)
Definition st_baseline (o : Z) : gmap string pyval :=
  <["fingerprint" := VTuple [2049; 131]]>
    (<["offset" := VInt o]> (<["rotated_fingerprint" := VNone]> ∅)).

Definition cfg_app : Config :=
  mkConfig "app" "/var/lib/lighthouse" app_log [str "ERROR"].

Definition fresh_observer : Observer := mkObserver cfg_app (ODict default_state).

(** A world in which the log file does not exist. *)
Definition w_no_log : world := mkWorld ∅ ∅ true.

(** The log exists but cannot be opened; a state with offset 4 is both in
    memory and on disk. *)
Definition locked_log : file :=
  File (Some [2049; 131]) (encode "0123456789") (Some (OSError "Permission denied")).

Definition w_locked : world :=
  mkWorld {[ app_log := locked_log ]}
          {[ state_file_path cfg_app := SFJson (json_dump (ODict (st_baseline 4))) ]}
          true.

Definition polled_observer : Observer := mkObserver cfg_app (ODict (st_baseline 4)).

(** Something outside the observer appends to a log file. *)
Definition append_bytes (w : world) (path : string) (data : bytes) : world :=
  mkWorld
    (alter (fun f => File (identity f) (content f ++ data) (read_error f)) path (files w))
    (state_files w) (state_writable w).

(** The ["offset"] entry of the state file of a target, as persisted. *)
Definition persisted_offset (w : world) (cfg : Config) : option jval :=
  match state_files w !! state_file_path cfg with
  | Some (SFJson (JObject j)) => j !! "offset"
  | _ => None
  end.

Definition line_1 : string := "line 1" +:+ nl.
Definition line_2 : string := "ERROR: line 2" +:+ nl.
Definition line_3 : string := "line 3" +:+ nl.
Definition line_4 : string := "ERROR: line 4" +:+ nl.

Definition scenario_log (ident : option (list Z)) : file :=
  File ident (encode (line_1 +:+ line_2 +:+ line_3)) None.

(** The log holds three lines, there is no sibling and no state file. *)
Definition w_scenario (ident : option (list Z)) : world :=
  mkWorld {[ app_log := scenario_log ident ]} ∅ true.

(** The target of the scenario, for a given pattern list. *)
Definition scenario_cfg (ps : list text) : Config :=
  mkConfig "app" "/var/lib/lighthouse" app_log ps.

(** The state dictionary after the classifier ran on the first poll. *)
Definition st_classified (ident : option (list Z)) : gmap string pyval :=
  match ident with
  | Some t => <["fingerprint" := VTuple t]> (<["rotated_fingerprint" := VNone]> default_state)
  | None => <["rotated_fingerprint" := VNone]> default_state
  end.

(** The observer and the world after the first poll, and the world after
    a fourth line was appended. *)
Definition o_polled (ps : list text) (ident : option (list Z)) : Observer :=
  mkObserver (scenario_cfg ps) (ODict (<["offset" := VInt 28]> (st_classified ident))).

Definition w_polled (ps : list text) (ident : option (list Z)) : world :=
  _save_state (w_scenario ident) (o_polled ps ident).



(** The scenario with the literal engine: the fresh world, and the
    result, the observer and the world of its first poll. *)
Definition w_fresh : world := w_scenario (Some [2049; 131]).

Definition first_result : ObservationResult :=
  mkResult true
    (<["matched_lines" := MLines [str "ERROR: line 2"]]>
       (<["log_file" := MStr app_log]> ∅)).

Definition o_first : Observer := o_polled [str "ERROR"] (Some [2049; 131]).

Definition w_first : world := w_polled [str "ERROR"] (Some [2049; 131]).

(** The same fresh world with a state directory that cannot be written. *)
Definition w_unwritable : world := mkWorld (files w_fresh) ∅ false.

(** The ten-byte log alone, and a state whose offset is [None]. *)
Definition w_ten : world := mkWorld fs_first_poll ∅ true.

Definition st_null_offset : gmap string pyval :=
  <["fingerprint" := VTuple [2049; 131]]>
    (<["offset" := VNone]> (<["rotated_fingerprint" := VNone]> ∅)).

Definition o_null_offset : Observer := mkObserver cfg_app (ODict st_null_offset).

(** A state file written before the sibling's identity was tracked. *)
Definition w_legacy : world :=
  mkWorld ∅ {[ state_file_path cfg_app := SFJson (JObject {[ "offset" := JInt 5 ]}) ]} true.

(** A stand-in for [str(e)]: the name of the exception class. *)
Definition exn_name (e : exn) : string :=
  match e with
  | OSError msg => msg
  | UnicodeDecodeError => "UnicodeDecodeError"
  | JSONDecodeError => "JSONDecodeError"
  | KeyError => "KeyError"
  | TypeError => "TypeError"
  | ValueError => "ValueError"
  | AttributeError => "AttributeError"
  end.

(** A watcher of the scenario's log: the tailing observer with the
    pattern-match evaluator, before its first check and after it. *)
Definition h_fresh : host := mkHost w_fresh ∅ None true.

Definition c_fresh : WatcherCoordinator Observer (gmap string pyval) :=
  mkCoordinator "app" fresh_observer ∅ "/var/lib/lighthouse" [].

Definition d_checked : AlertDecision :=
  mkDecision true (VStr "medium") (str "Pattern matched: ") (metadata first_result).

Definition c_checked : WatcherCoordinator Observer (gmap string pyval) :=
  mkCoordinator "app" o_first ∅ "/var/lib/lighthouse" [first_result].

Definition h_checked : host :=
  mkHost w_first
    {[ "/var/lib/lighthouse/app.history.json" := HFItems [first_result] ]}
    None true.

(** A log rotated by move-create whose new file cannot be read yet, and
    the same files once it can. *)
Definition new_log_content : bytes :=
  encode ("ERROR: lost" +:+ nl +:+ "ERROR: kept" +:+ nl).

Definition new_log_locked : file :=
  File (Some [2049; 132]) new_log_content (Some (OSError "Permission denied")).

Definition new_log_readable : file := File (Some [2049; 132]) new_log_content None.

Definition w_rotated_locked : world :=
  mkWorld (<[app_log_1 := ten_bytes]> {[ app_log := new_log_locked ]}) ∅ true.

Definition w_rotated_readable : world :=
  mkWorld (<[app_log_1 := ten_bytes]> {[ app_log := new_log_readable ]}) ∅ true.

(** The observer had read the old ten-byte log to its end. *)
Definition o_read_to_end : Observer := mkObserver cfg_app (ODict (st_baseline 10)).

(** Its state after the poll whose read failed. *)
Definition st_after_failed_read : gmap string pyval :=
  <["fingerprint" := VTuple [2049; 132]]>
    (<["rotated_fingerprint" := VTuple [2049; 131]]> (st_baseline 10)).

(** The directory of the log may not be searched. *)
Definition stat_denied : gmap string exn := {[ app_log := OSError "Permission denied" ]}.

(** * Properties *)

(** ** Basic facts about the model *)

Lemma py_eq_true (a b : pyval) : py_eq a b = true <-> a = b.
Proof. unfold py_eq. apply bool_decide_eq_true. Qed.

Lemma py_eq_false (a b : pyval) : py_eq a b = false <-> a <> b.
Proof. unfold py_eq. apply bool_decide_eq_false. Qed.

Lemma st_size_nonneg (f : file) : 0 <= st_size f.
Proof. unfold st_size. lia. Qed.

(** The classifier in each of its three branches. *)
Lemma detect_no_rotation fs log rot (st : gmap string pyval) :
  dict_get st "fingerprint" VNone = get_file_fingerprint fs log ->
  dict_get st "rotated_fingerprint" VNone = current_rotated_fingerprint fs rot ->
  detect fs log rot st = NoRotationHandler.
Proof.
  intros Hm Hr. unfold detect.
  apply py_eq_true in Hm. apply py_eq_true in Hr. by rewrite Hm, Hr.
Qed.

Lemma detect_copytruncate fs log rot (st : gmap string pyval) :
  dict_get st "fingerprint" VNone = get_file_fingerprint fs log ->
  dict_get st "rotated_fingerprint" VNone <> current_rotated_fingerprint fs rot ->
  detect fs log rot st = CopytruncateRotationHandler.
Proof.
  intros Hm Hr. unfold detect.
  apply py_eq_true in Hm. apply py_eq_false in Hr. by rewrite Hm, Hr.
Qed.

Lemma detect_move_create fs log rot (st : gmap string pyval) :
  dict_get st "fingerprint" VNone <> get_file_fingerprint fs log ->
  detect fs log rot st = MoveCreateRotationHandler.
Proof.
  intros Hm. unfold detect. apply py_eq_false in Hm. by rewrite Hm.
Qed.

(** Refreshing the sibling's identity leaves the stored offset alone. *)
Lemma dict_get_offset_refresh (st : gmap string pyval) (v dflt : pyval) :
  dict_get (<["rotated_fingerprint" := v]> st) "offset" dflt = dict_get st "offset" dflt.
Proof. unfold dict_get. by rewrite lookup_insert_ne. Qed.

(** No branch of the classifier writes the ["offset"] key. *)
Lemma detect_and_handle_offset_kept fs log rot (st : gmap string pyval) :
  (detect_and_handle fs log rot st).2 !! "offset" = st !! "offset".
Proof.
  unfold detect_and_handle.
  destruct (detect fs log rot st); simpl;
    rewrite ?lookup_insert_ne by done; done.
Qed.

(** The sibling's identity is refreshed in every branch. *)
Lemma detect_and_handle_refreshes_rotated fs log rot (st : gmap string pyval) :
  (detect_and_handle fs log rot st).2 !! "rotated_fingerprint"
  = Some (current_rotated_fingerprint fs rot).
Proof.
  unfold detect_and_handle.
  destruct (detect fs log rot st); simpl;
    rewrite ?lookup_insert_ne by done; by rewrite lookup_insert_eq.
Qed.

(** Whatever offset the classifier hands out for an existing file lies
    within the file. *)
Lemma detect_and_handle_offset_le fs log rot (st : gmap string pyval) f offset :
  fs !! log = Some f ->
  (detect_and_handle fs log rot st).1 = Ok offset ->
  offset <= st_size f.
Proof.
  intros Hf. unfold detect_and_handle.
  pose proof (st_size_nonneg f) as Hsz.
  destruct (detect fs log rot st); simpl.
  - unfold no_rotation_handle. rewrite Hf.
    destruct (dict_get _ "offset" (VInt 0)); try discriminate.
    destruct (Z.ltb_spec (st_size f) z); intros [= <-]; lia.
  - unfold copytruncate_handle. intros [= <-]. lia.
  - intros [= <-]. lia.
Qed.

(** ** The rotation classifier *)




(** C2: when the stored main identity equals the current one and the
    stored sibling identity differs from the current one, the classifier
    takes the copy-truncate branch and returns offset 0, whatever the size
    of the main file and the stored offset are. *)
Theorem copytruncate_resets_offset fs log rot (st : gmap string pyval) :
  dict_get st "fingerprint" VNone = get_file_fingerprint fs log ->
  dict_get st "rotated_fingerprint" VNone <> current_rotated_fingerprint fs rot ->
  detect fs log rot st = CopytruncateRotationHandler
  /\ (detect_and_handle fs log rot st).1 = Ok 0.
Proof.
  intros Hm Hr.
  pose proof (detect_copytruncate fs log rot st Hm Hr) as Hd.
  split; [exact Hd|]. unfold detect_and_handle. by rewrite Hd.
Qed.

Lemma copytruncate_resets_offset_witness :
  4 <= st_size ten_bytes
  /\ dict_get st_sibling_seen "offset" (VInt 0) = VInt 4
  /\ (detect_and_handle fs_sibling_replaced app_log app_log_1 st_sibling_seen).1 = Ok 0.
Proof.
  split; [vm_compute; discriminate|]. split; [vm_compute; reflexivity|].
  apply (copytruncate_resets_offset fs_sibling_replaced app_log app_log_1 st_sibling_seen).
  - vm_compute. reflexivity.
  - vm_compute. discriminate.
Defined.



(** C4: when both identities are unchanged and the main file exists, the
    classifier returns 0 if the file's size is strictly below the stored
    offset, and the stored offset otherwise. *)
Theorem no_rotation_offset fs log rot (st : gmap string pyval) f o :
  fs !! log = Some f ->
  dict_get st "offset" (VInt 0) = VInt o ->
  dict_get st "fingerprint" VNone = get_file_fingerprint fs log ->
  dict_get st "rotated_fingerprint" VNone = current_rotated_fingerprint fs rot ->
  detect fs log rot st = NoRotationHandler
  /\ (detect_and_handle fs log rot st).1 = Ok (if st_size f <? o then 0 else o).
Proof.
  intros Hf Ho Hm Hr.
  pose proof (detect_no_rotation fs log rot st Hm Hr) as Hd.
  split; [exact Hd|]. unfold detect_and_handle. rewrite Hd. simpl.
  unfold no_rotation_handle. rewrite Hf, dict_get_offset_refresh, Ho.
  by destruct (st_size f <? o).
Qed.

Lemma no_rotation_offset_witness :
  (detect_and_handle fs_first_poll app_log app_log_1 (st_baseline 4)).1 = Ok 4
  /\ (detect_and_handle fs_first_poll app_log app_log_1 (st_baseline 25)).1 = Ok 0.
Proof.
  split.
  - apply (no_rotation_offset fs_first_poll app_log app_log_1 (st_baseline 4) ten_bytes 4);
      vm_compute; reflexivity.
  - apply (no_rotation_offset fs_first_poll app_log app_log_1 (st_baseline 25) ten_bytes 25);
      vm_compute; reflexivity.
Defined.

(** ** The tailer *)

(** C5, as stated, fails: [seek] does not clamp.  On a file of ten bytes,
    seeking to 25 leaves the handle at 25, reading finds nothing, and the
    position reported afterwards is still 25. *)
Lemma seek_past_end_not_clamped :
  st_size ten_bytes = 10
  /\ (h ← open_text ten_bytes; h1 ← seek h 25; Ok (pos h1)) = Ok 25
  /\ read_new_lines ten_bytes 25 = Ok ([], 25)
  /\ ~ (25 <= st_size ten_bytes).
Proof.
  repeat split; try (vm_compute; reflexivity).
  vm_compute. intros H. apply H. reflexivity.
Qed.

(** C5 (amended): the tailer seeks to exactly the offset the classifier
    returned, with no clamp of its own; for a main file that exists this
    offset is never greater than the current file size (it is 0 or a
    stored offset that passed the size check), so within a poll reading
    starts inside [0, size]. *)
Theorem read_position_within_file fs log rot (st st1 : gmap string pyval) f offset h h1 :
  fs !! log = Some f ->
  detect_and_handle fs log rot st = (Ok offset, st1) ->
  open_text f = Ok h ->
  seek h offset = Ok h1 ->
  pos h1 = offset /\ 0 <= pos h1 <= st_size f.
Proof.
  intros Hf Hd Ho Hs.
  assert (offset <= st_size f) as Hle.
  { apply (detect_and_handle_offset_le fs log rot st f offset Hf). by rewrite Hd. }
  unfold seek in Hs. destruct (Z.ltb_spec offset 0); [discriminate|].
  injection Hs as <-. simpl. lia.
Qed.

Lemma read_position_within_file_witness :
  0 <= 4 <= st_size ten_bytes.
Proof.
  apply (read_position_within_file fs_first_poll app_log app_log_1
           (st_baseline 4)
           (<["rotated_fingerprint" := VNone]> (st_baseline 4))
           ten_bytes 4 (mkTextIO ten_bytes 0) (mkTextIO ten_bytes 4)).
  - vm_compute. reflexivity.
  - unfold detect_and_handle.
    replace (detect fs_first_poll app_log app_log_1 (st_baseline 4))
      with NoRotationHandler by (vm_compute; reflexivity).
    vm_compute. reflexivity.
  - reflexivity.
  - reflexivity.
Defined.

(** ** Stripping *)

Lemma lstrip_suffix (t : text) : exists p, t = p ++ lstrip t.
Proof.
  induction t as [|c r [p IH]]; simpl.
  - by exists [].
  - destruct (is_space c).
    + exists (c :: p). simpl. by rewrite <- IH.
    + by exists [].
Qed.

Lemma lstrip_head (t : text) c : head (lstrip t) = Some c -> is_space c = false.
Proof.
  induction t as [|d r IH]; simpl; [discriminate|].
  destruct (is_space d) eqn:Hd; [exact IH|].
  simpl. intros [= <-]. exact Hd.
Qed.

Lemma rstrip_prefix (t : text) : exists q, t = rstrip t ++ q.
Proof.
  unfold rstrip. destruct (lstrip_suffix (reverse t)) as [p Hp].
  exists (reverse p).
  rewrite <- reverse_app, <- Hp. by rewrite reverse_involutive.
Qed.

Lemma rstrip_last (t : text) c : last (rstrip t) = Some c -> is_space c = false.
Proof. unfold rstrip. rewrite last_reverse. apply lstrip_head. Qed.

Lemma rstrip_head (t : text) c : head (rstrip t) = Some c -> head t = Some c.
Proof.
  intros H. destruct (rstrip_prefix t) as [q Hq].
  rewrite Hq, head_app. by rewrite H.
Qed.

(** Neither end of a stripped line is a whitespace character. *)
Lemma strip_ends (t : text) c :
  is_space c = true -> head (strip t) <> Some c /\ last (strip t) <> Some c.
Proof.
  intros Hc. unfold strip. split; intros H.
  - apply rstrip_head, lstrip_head in H. congruence.
  - apply rstrip_last in H. congruence.
Qed.

(** The matched lines are stripped copies of matching lines, in order. *)
Lemma search_lines_elem re_search ps lines (s : text) :
  s ∈ search_lines re_search ps lines ->
  exists line, line ∈ lines /\ any_pattern re_search ps line = true /\ s = strip line.
Proof.
  induction lines as [|l ls IH]; simpl.
  - intros H. by apply elem_of_nil in H.
  - destruct (any_pattern re_search ps l) eqn:Hl.
    + intros [->|H]%elem_of_cons.
      * exists l. split; [left|done].
      * destruct (IH H) as (line & ? & ? & ?). exists line. split; [by right|done].
    + intros H. destruct (IH H) as (line & ? & ? & ?).
      exists line. split; [by right|done].
Qed.

(** ** The orchestrator *)

(** C6, as stated, fails on the text of the status: the metadata of a poll
    that finds no file is [{"status": "file not found"}], not
    [{"status": "not found"}]. *)
Lemma missing_file_status_text :
  files w_no_log !! log_file (config fresh_observer) = None
  /\ match (observe literal_search w_no_log fresh_observer).1.1 with
     | Ok r =>
         value r = false
         /\ metadata r !! "status" = Some (MStr "file not found")
         /\ metadata r !! "status" <> Some (MStr "not found")
     | Raise _ => False
     end.
Proof.
  split; [reflexivity|]. vm_compute.
  repeat split; discriminate.
Qed.

(** C6 (amended): when the target file does not exist, [observe] returns a
    result with value [False] and metadata [{"status": "file not found"}];
    the in-memory state and the persisted state are left as they were. *)
Theorem observe_missing_file re_search (w : world) (o : Observer) :
  files w !! log_file (config o) = None ->
  observe re_search w o
  = (Ok (mkResult false (<["status" := MStr "file not found"]> ∅)), o, w).
Proof. intros Hf. unfold observe. by rewrite Hf. Qed.

Lemma observe_missing_file_witness :
  observe literal_search w_no_log fresh_observer
  = (Ok (mkResult false (<["status" := MStr "file not found"]> ∅)),
     fresh_observer, w_no_log).
Proof.
  apply (observe_missing_file literal_search w_no_log fresh_observer).
  reflexivity.
Defined.

(** How [observe] unfolds once the file exists and the classifier has
    returned an offset. *)
Lemma observe_classified re_search (w : world) (o : Observer) f
    (st st1 : gmap string pyval) offset :
  files w !! log_file (config o) = Some f ->
  state o = ODict st ->
  detect_and_handle (files w) (log_file (config o)) (rotated_log_file (config o)) st
  = (Ok offset, st1) ->
  observe re_search w o
  = match read_new_lines f offset with
    | Raise e =>
        (Ok (mkResult false (<["error" := MErr e]> ∅)),
         mkObserver (config o) (ODict st1), w)
    | Ok (lines, new_offset) =>
        let o2 := mkObserver (config o) (ODict (<["offset" := VInt new_offset]> st1)) in
        (Ok (report o lines (search_lines re_search (patterns (config o)) lines)),
         o2, _save_state w o2)
    end.
Proof.
  intros Hf Hst Hd. unfold observe. rewrite Hf, Hst, Hd.
  by destruct (read_new_lines f offset) as [[lines new_offset]|e].
Qed.

(** What does hold when reading the file raises: [observe] returns a
    result with value [False] and the error in its metadata, the world
    (with it the persisted state file) is unchanged, and the ["offset"]
    entry in memory is the one from before the poll.  The identities in
    memory are the ones the classifier has just written. *)
Lemma observe_read_failure re_search (w : world) (o : Observer) f
    (st st1 : gmap string pyval) offset e :
  files w !! log_file (config o) = Some f ->
  state o = ODict st ->
  detect_and_handle (files w) (log_file (config o)) (rotated_log_file (config o)) st
  = (Ok offset, st1) ->
  read_new_lines f offset = Raise e ->
  observe re_search w o
  = (Ok (mkResult false (<["error" := MErr e]> ∅)),
     mkObserver (config o) (ODict st1), w)
  /\ st1 !! "offset" = st !! "offset".
Proof.
  intros Hf Hst Hd Hr. split.
  - rewrite (observe_classified re_search w o f st st1 offset Hf Hst Hd). by rewrite Hr.
  - pose proof (detect_and_handle_offset_kept (files w) (log_file (config o))
                  (rotated_log_file (config o)) st) as Hk.
    by rewrite Hd in Hk.
Qed.

Lemma observe_read_failure_witness :
  exists o',
    observe literal_search w_locked polled_observer
    = (Ok (mkResult false (<["error" := MErr (OSError "Permission denied")]> ∅)),
       o', w_locked)
    /\ match state o' with
       | ODict st' => st' !! "offset" = Some (VInt 4)
       | OVal _ => False
       end.
Proof.
  destruct (observe_read_failure literal_search w_locked polled_observer locked_log
              (st_baseline 4) (<["rotated_fingerprint" := VNone]> (st_baseline 4))
              4 (OSError "Permission denied")) as [Hobs Hoff].
  - vm_compute. reflexivity.
  - reflexivity.
  - unfold detect_and_handle.
    replace (detect (files w_locked) (log_file (config polled_observer))
               (rotated_log_file (config polled_observer)) (st_baseline 4))
      with NoRotationHandler by (vm_compute; reflexivity).
    vm_compute. reflexivity.
  - reflexivity.
  - eexists. split; [exact Hobs|]. simpl. rewrite Hoff. vm_compute. reflexivity.
Defined.

(** C7 does not hold of the code: progress is claimed on a failed read.
    The classifier rebinds the identities in [self.state] before the
    [try], and the offset it resets lives only in a local variable that
    the [except] path drops.  After a move-create rotation whose new file
    cannot be read at first, the state pairs the new identity with the
    old offset 10; the next poll sees no rotation, resumes at byte 10 of
    the new file and never reports its first line. *)
Theorem read_failure_loses_rotation_reset :
  observe literal_search w_rotated_locked o_read_to_end
  = (Ok (mkResult false (<["error" := MErr (OSError "Permission denied")]> ∅)),
     mkObserver cfg_app (ODict st_after_failed_read), w_rotated_locked)
  /\ st_after_failed_read !! "fingerprint" = Some (VTuple [2049; 132])
  /\ st_after_failed_read !! "offset" = Some (VInt 10)
  /\ (exists o2 w2 st2,
        observe literal_search w_rotated_readable
          (mkObserver cfg_app (ODict st_after_failed_read))
        = (Ok (mkResult true
                 (<["matched_lines" := MLines [str "ERROR: kept"]]>
                    (<["log_file" := MStr app_log]> ∅))),
           o2, w2)
        /\ state o2 = ODict st2
        /\ st2 !! "offset" = Some (VInt 24))
  /\ (exists lines,
        read_new_lines new_log_readable 0 = Ok (lines, 24)
        /\ search_lines literal_search [str "ERROR"] lines
           = [str "ERROR: lost"; str "ERROR: kept"]).
Proof.
  split. { vm_compute. reflexivity. }
  split. { vm_compute. reflexivity. }
  split. { vm_compute. reflexivity. }
  split.
  - eexists _, _, _. split; [vm_compute; reflexivity|].
    split; [reflexivity|]. vm_compute. reflexivity.
  - eexists. split; vm_compute; reflexivity.
Qed.

(** C10: every string in the matched-lines output of a poll is [strip] of
    a line that was read and that some pattern matched; it neither starts
    nor ends with a whitespace character, so it carries no terminating
    newline and no leading or trailing space or tab. *)
Theorem matched_lines_are_stripped re_search (w w' : world) (o o' : Observer)
    (r : ObservationResult) (ml : list text) :
  observe re_search w o = (Ok r, o', w') ->
  metadata r !! "matched_lines" = Some (MLines ml) ->
  exists f offset lines new_offset,
    files w !! log_file (config o) = Some f
    /\ read_new_lines f offset = Ok (lines, new_offset)
    /\ forall s, s ∈ ml ->
         (exists line, line ∈ lines
            /\ any_pattern re_search (patterns (config o)) line = true
            /\ s = strip line)
         /\ (forall c, is_space c = true -> head s <> Some c /\ last s <> Some c)
         /\ last s <> Some LF
         /\ head s <> Some 32%N /\ last s <> Some 32%N
         /\ head s <> Some 9%N /\ last s <> Some 9%N.
Proof.
  unfold observe. intros Hobs Hml.
  destruct (files w !! log_file (config o)) as [f|] eqn:Hf.
  2:{ injection Hobs as <- _ _. simpl in Hml.
      rewrite lookup_insert_ne in Hml by done. by rewrite lookup_empty in Hml. }
  destruct (state o) as [st|v]; [|discriminate].
  destruct (detect_and_handle _ _ _ st) as [[offset|e] st1]; [|discriminate].
  destruct (read_new_lines f offset) as [[lines new_offset]|e] eqn:Hread.
  2:{ injection Hobs as <- _ _. simpl in Hml.
      rewrite lookup_insert_ne in Hml by done. by rewrite lookup_empty in Hml. }
  injection Hobs as <- _ _.
  exists f, offset, lines, new_offset. split; [done|]. split; [done|].
  unfold report in Hml.
  destruct (search_lines re_search (patterns (config o)) lines) as [|m ms] eqn:Hs;
    simpl in Hml.
  { rewrite lookup_insert_ne in Hml by done. by rewrite lookup_empty in Hml. }
  rewrite lookup_insert_eq in Hml. injection Hml as <-.
  intros s Hin. rewrite <- Hs in Hin.
  destruct (search_lines_elem _ _ _ _ Hin) as (line & Hline & Hmatch & ->).
  split; [by exists line|].
  split; [intros c Hc; by apply strip_ends|].
  pose proof (strip_ends line LF eq_refl) as [_ ?].
  pose proof (strip_ends line 32%N eq_refl) as [? ?].
  pose proof (strip_ends line 9%N eq_refl) as [? ?].
  done.
Qed.

(** ** The tailing scenario *)

Lemma detect_and_handle_no_rotation fs log rot (st : gmap string pyval) :
  dict_get st "fingerprint" VNone = get_file_fingerprint fs log ->
  dict_get st "rotated_fingerprint" VNone = current_rotated_fingerprint fs rot ->
  detect_and_handle fs log rot st
  = (no_rotation_handle fs log st,
     <["rotated_fingerprint" := current_rotated_fingerprint fs rot]> st).
Proof.
  intros Hm Hr. unfold detect_and_handle.
  rewrite (detect_no_rotation fs log rot st Hm Hr). simpl.
  unfold no_rotation_handle. by rewrite dict_get_offset_refresh.
Qed.

Lemma detect_and_handle_move_create fs log rot (st : gmap string pyval) :
  dict_get st "fingerprint" VNone <> get_file_fingerprint fs log ->
  detect_and_handle fs log rot st
  = (Ok 0,
     <["fingerprint" := get_file_fingerprint fs log]>
       (<["rotated_fingerprint" := current_rotated_fingerprint fs rot]> st)).
Proof.
  intros Hm. unfold detect_and_handle.
  by rewrite (detect_move_create fs log rot st Hm).
Qed.

Section Scenario.

Variable re_search : text -> text -> bool.
Variable ps : list text.
Variable ident : option (list Z).

(** The pattern list matches the two ERROR lines and no other line. *)
Hypothesis no_match_1 : any_pattern re_search ps (str line_1) = false.
Hypothesis match_2 : any_pattern re_search ps (str line_2) = true.
Hypothesis no_match_3 : any_pattern re_search ps (str line_3) = false.
Hypothesis match_4 : any_pattern re_search ps (str line_4) = true.

Lemma scenario_first_classification :
  detect_and_handle (files (w_scenario ident)) app_log
    (rotated_log_file (scenario_cfg ps)) default_state
  = (Ok 0, st_classified ident).
Proof.
  unfold st_classified. destruct ident as [t|].
  - rewrite detect_and_handle_move_create by (vm_compute; discriminate).
    vm_compute. reflexivity.
  - rewrite detect_and_handle_no_rotation by (vm_compute; reflexivity).
    vm_compute. reflexivity.
Qed.

Lemma scenario_first_read :
  read_new_lines (scenario_log ident) 0
  = Ok ([str line_1; str line_2; str line_3], 28).
Proof. vm_compute. reflexivity. Qed.

Lemma scenario_first_poll :
  observe re_search (w_scenario ident) (mkObserver (scenario_cfg ps) (ODict default_state))
  = (Ok (mkResult true
           (<["matched_lines" := MLines [str "ERROR: line 2"]]>
              (<["log_file" := MStr app_log]> ∅))),
     o_polled ps ident, w_polled ps ident).
Proof.
  rewrite (observe_classified re_search _ _ (scenario_log ident) default_state
             (st_classified ident) 0);
    [| reflexivity | reflexivity | exact scenario_first_classification].
  rewrite scenario_first_read. cbv zeta.
  unfold search_lines. simpl patterns. rewrite no_match_1, match_2, no_match_3.
  reflexivity.
Qed.





End Scenario.



Lemma matched_lines_are_stripped_witness :
  exists f offset lines new_offset,
    files (w_scenario (Some [2049; 131])) !! log_file (config fresh_observer) = Some f
    /\ read_new_lines f offset = Ok (lines, new_offset)
    /\ forall s, s ∈ [str "ERROR: line 2"] ->
         (exists line, line ∈ lines
            /\ any_pattern literal_search (patterns (config fresh_observer)) line = true
            /\ s = strip line)
         /\ (forall c, is_space c = true -> head s <> Some c /\ last s <> Some c)
         /\ last s <> Some LF
         /\ head s <> Some 32%N /\ last s <> Some 32%N
         /\ head s <> Some 9%N /\ last s <> Some 9%N.
Proof.
  apply (matched_lines_are_stripped literal_search
           (w_scenario (Some [2049; 131]))
           (w_polled [str "ERROR"] (Some [2049; 131]))
           fresh_observer
           (o_polled [str "ERROR"] (Some [2049; 131]))
           (mkResult true
              (<["matched_lines" := MLines [str "ERROR: line 2"]]>
                 (<["log_file" := MStr app_log]> ∅)))
           [str "ERROR: line 2"]).
  - apply (scenario_first_poll literal_search [str "ERROR"] (Some [2049; 131]));
      vm_compute; reflexivity.
  - vm_compute. reflexivity.
Defined.

(** ** Loading the persisted state *)

(** Without a state file the defaults are returned. *)
Lemma load_state_absent (w : world) (cfg : Config) :
  state_files w !! state_file_path cfg = None ->
  _load_state w cfg = Ok (ODict default_state).
Proof. intros H. unfold _load_state. by rewrite H. Qed.

(** Text that is not JSON is discarded for the defaults. *)
Lemma load_state_not_json (w : world) (cfg : Config) :
  state_files w !! state_file_path cfg = Some SFNotJson ->
  _load_state w cfg = Ok (ODict default_state).
Proof. intros H. unfold _load_state. by rewrite H. Qed.

(** A JSON object is returned as the state, with the
    ["rotated_fingerprint"] key added when it is missing. *)
Lemma load_state_object (w : world) (cfg : Config) (j : gmap string jval) :
  state_files w !! state_file_path cfg = Some (SFJson (JObject j)) ->
  _load_state w cfg
  = Ok (ODict (match j !! "rotated_fingerprint" with
               | Some _ => of_json <$> j
               | None => <["rotated_fingerprint" := VNone]> (of_json <$> j)
               end)).
Proof.
  intros H. unfold _load_state. rewrite H.
  unfold load_state_try. simpl. rewrite lookup_fmap.
  by destruct (j !! "rotated_fingerprint") as [v|].
Qed.

(** What [_save_state] wrote is what [_load_state] reads back, except that
    a tuple comes back as a list. *)
Lemma load_after_save (w : world) (o : Observer) (st : gmap string pyval) :
  state o = ODict st ->
  state_writable w = true ->
  is_Some (st !! "rotated_fingerprint") ->
  _load_state (_save_state w o) (config o) = Ok (ODict ((of_json ∘ to_json) <$> st)).
Proof.
  intros Hst Hw [v Hv].
  rewrite (load_state_object _ _ (to_json <$> st)).
  - rewrite lookup_fmap, Hv. simpl. by rewrite <- map_fmap_compose.
  - unfold _save_state. rewrite Hw. simpl. by rewrite lookup_insert_eq, Hst.
Qed.

(** C8 does not hold of the code: [_load_state] catches only
    [JSONDecodeError] and [KeyError].  A state file that cannot be opened,
    one whose bytes are not UTF-8, and one whose JSON is not an object
    (here [null]) each make it raise instead of returning the defaults. *)
Theorem load_state_raises (fs : gmap string file) (cfg : Config) (msg : string)
    (writable : bool) :
  _load_state (mkWorld fs {[ state_file_path cfg := SFUnreadable msg ]} writable) cfg
  = Raise (OSError msg)
  /\ _load_state (mkWorld fs {[ state_file_path cfg := SFNotUtf8 ]} writable) cfg
     = Raise UnicodeDecodeError
  /\ _load_state (mkWorld fs {[ state_file_path cfg := SFJson (JValue JNull) ]} writable) cfg
     = Raise TypeError
  /\ new_Observer (mkWorld fs {[ state_file_path cfg := SFNotUtf8 ]} writable) cfg
     = Raise UnicodeDecodeError.
Proof.
  unfold new_Observer, _load_state. simpl.
  rewrite !lookup_singleton_eq. done.
Qed.

(** * Further properties *)

(** ** More on the classifier *)

(** After the classifier ran, the stored identities are the current ones. *)
Lemma detect_and_handle_settled fs log rot (st : gmap string pyval) :
  dict_get (detect_and_handle fs log rot st).2 "fingerprint" VNone
  = get_file_fingerprint fs log
  /\ dict_get (detect_and_handle fs log rot st).2 "rotated_fingerprint" VNone
     = current_rotated_fingerprint fs rot.
Proof.
  unfold detect_and_handle, detect, dict_get.
  destruct (py_eq _ (get_file_fingerprint fs log)) eqn:Hm.
  - apply py_eq_true in Hm. unfold dict_get in Hm.
    destruct (negb _); simpl;
      rewrite lookup_insert_ne by done; rewrite lookup_insert_eq; done.
  - simpl. rewrite lookup_insert_eq, lookup_insert_ne by done.
    by rewrite lookup_insert_eq.
Qed.




(** ** The read block *)

Lemma read_new_lines_ok (f : file) offset :
  read_error f = None -> 0 <= offset ->
  read_new_lines f offset
  = Ok (split_lines (translate_newlines
          (utf8_decode_ignore (drop (Z.to_nat offset) (content f)))),
        Z.max offset (st_size f)).
Proof.
  intros He Ho. unfold read_new_lines, open_text. rewrite He. simpl.
  unfold seek. destruct (Z.ltb_spec offset 0); [lia|]. reflexivity.
Qed.

Lemma read_new_lines_negative (f : file) offset :
  read_error f = None -> offset < 0 -> read_new_lines f offset = Raise ValueError.
Proof.
  intros He Ho. unfold read_new_lines, open_text. rewrite He. simpl.
  unfold seek. destruct (Z.ltb_spec offset 0); [done|lia].
Qed.

Lemma read_new_lines_error (f : file) offset e :
  read_error f = Some e -> read_new_lines f offset = Raise e.
Proof. intros He. unfold read_new_lines, open_text. by rewrite He. Qed.

(** A read that succeeds started at a position that is not negative, on a
    file that can be opened. *)
Lemma read_new_lines_inv (f : file) offset lines new_offset :
  read_new_lines f offset = Ok (lines, new_offset) ->
  read_error f = None /\ 0 <= offset
  /\ lines = split_lines (translate_newlines
               (utf8_decode_ignore (drop (Z.to_nat offset) (content f))))
  /\ new_offset = Z.max offset (st_size f).
Proof.
  intros H. destruct (read_error f) as [e|] eqn:He.
  { by rewrite (read_new_lines_error f offset e He) in H. }
  destruct (Z.ltb_spec offset 0) as [Hneg|Hpos].
  { by rewrite (read_new_lines_negative f offset He Hneg) in H. }
  rewrite (read_new_lines_ok f offset He Hpos) in H.
  injection H as <- <-. done.
Qed.

(** What a poll that reports no error went through. *)
Lemma observe_success_inv re_search (w w' : world) (o o' : Observer) f r :
  files w !! log_file (config o) = Some f ->
  observe re_search w o = (Ok r, o', w') ->
  metadata r !! "error" = None ->
  exists st st1 offset lines,
    state o = ODict st
    /\ detect_and_handle (files w) (log_file (config o)) (rotated_log_file (config o)) st
       = (Ok offset, st1)
    /\ read_new_lines f offset = Ok (lines, st_size f)
    /\ 0 <= offset <= st_size f
    /\ r = report o lines (search_lines re_search (patterns (config o)) lines)
    /\ o' = mkObserver (config o) (ODict (<["offset" := VInt (st_size f)]> st1))
    /\ w' = _save_state w o'.
Proof.
  intros Hf Hobs Herr. unfold observe in Hobs. rewrite Hf in Hobs.
  destruct (state o) as [st|v]; [|discriminate].
  destruct (detect_and_handle _ _ _ st) as [[offset|e] st1] eqn:Hd; [|discriminate].
  assert (offset <= st_size f) as Hle.
  { apply (detect_and_handle_offset_le (files w) (log_file (config o))
             (rotated_log_file (config o)) st f offset Hf). by rewrite Hd. }
  destruct (read_new_lines f offset) as [[lines new_offset]|e] eqn:Hread.
  2:{ injection Hobs as <- _ _. simpl in Herr. by rewrite lookup_insert_eq in Herr. }
  destruct (read_new_lines_inv f offset lines new_offset Hread) as (_ & Hpos & _ & Hnew).
  assert (new_offset = st_size f) as -> by lia.
  injection Hobs as <- <- <-.
  exists st, st1, offset, lines. repeat split; try done; lia.
Qed.

(** X3: after a poll that read the file, the stored offset is exactly the
    size of the file, and on a writable state directory that offset is
    what the state file holds. *)
Theorem successful_poll_offset_is_size re_search (w w' : world) (o o' : Observer) f r :
  files w !! log_file (config o) = Some f ->
  observe re_search w o = (Ok r, o', w') ->
  metadata r !! "error" = None ->
  exists st', state o' = ODict st'
    /\ st' !! "offset" = Some (VInt (st_size f))
    /\ (state_writable w = true ->
        persisted_offset w' (config o) = Some (JInt (st_size f))).
Proof.
  intros Hf Hobs Herr.
  destruct (observe_success_inv re_search w w' o o' f r Hf Hobs Herr)
    as (st & st1 & offset & lines & Hst & Hd & Hread & Hoff & -> & -> & ->).
  eexists. split; [reflexivity|]. split; [by rewrite lookup_insert_eq|].
  intros Hw. unfold persisted_offset, _save_state. rewrite Hw. simpl.
  rewrite lookup_insert_eq. simpl. rewrite lookup_fmap, lookup_insert_eq. done.
Qed.

Lemma successful_poll_offset_is_size_witness :
  exists st', state o_first = ODict st'
    /\ st' !! "offset" = Some (VInt 28)
    /\ (state_writable w_fresh = true ->
        persisted_offset w_first (config fresh_observer) = Some (JInt 28)).
Proof.
  apply (successful_poll_offset_is_size literal_search w_fresh w_first
           fresh_observer o_first (scenario_log (Some [2049; 131])) first_result);
    vm_compute; reflexivity.
Defined.

(** Saving the state that is already saved changes nothing. *)
Lemma save_state_twice (w : world) (o : Observer) :
  _save_state (_save_state w o) o = _save_state w o.
Proof.
  unfold _save_state. destruct (state_writable w) eqn:Hw; simpl.
  - by rewrite insert_insert_eq.
  - by rewrite Hw.
Qed.

Lemma save_state_files (w : world) (o : Observer) : files (_save_state w o) = files w.
Proof. unfold _save_state. by destruct (state_writable w). Qed.

(** X4: polling again when nothing changed is a no-op: it reports no
    match with [lines_read = 0] and leaves the observer and the world
    exactly as the first poll left them. *)
Theorem second_poll_is_noop re_search (w w1 : world) (o o1 : Observer) f r :
  files w !! log_file (config o) = Some f ->
  observe re_search w o = (Ok r, o1, w1) ->
  metadata r !! "error" = None ->
  observe re_search w1 o1
  = (Ok (mkResult false (<["lines_read" := MInt 0]> ∅)), o1, w1).
Proof.
  intros Hf Hobs Herr.
  destruct (observe_success_inv re_search w w1 o o1 f r Hf Hobs Herr)
    as (st & st1 & offset & lines & Hst & Hd & Hread & Hoff & _ & -> & ->).
  destruct (read_new_lines_inv f offset lines _ Hread) as (He & _ & _ & _).
  set (st2 := <["offset" := VInt (st_size f)]> st1).
  pose proof (detect_and_handle_settled (files w) (log_file (config o))
                (rotated_log_file (config o)) st) as [Hm Hr].
  rewrite Hd in Hm, Hr. simpl in Hm, Hr.
  assert (st1 !! "rotated_fingerprint"
          = Some (current_rotated_fingerprint (files w) (rotated_log_file (config o))))
    as Hrot.
  { pose proof (detect_and_handle_refreshes_rotated (files w) (log_file (config o))
                  (rotated_log_file (config o)) st) as H. by rewrite Hd in H. }
  assert (detect_and_handle (files w) (log_file (config o))
            (rotated_log_file (config o)) st2 = (Ok (st_size f), st2)) as Hd2.
  { rewrite detect_and_handle_no_rotation.
    - unfold no_rotation_handle, dict_get. rewrite Hf. unfold st2 at 1.
      rewrite lookup_insert_eq. simpl. rewrite Z.ltb_irrefl.
      f_equal. apply insert_id. unfold st2. by rewrite lookup_insert_ne.
    - unfold dict_get, st2. by rewrite lookup_insert_ne.
    - unfold dict_get, st2. by rewrite lookup_insert_ne. }
  assert (read_new_lines f (st_size f) = Ok ([], st_size f)) as Hread2.
  { rewrite read_new_lines_ok by (try done; apply st_size_nonneg).
    unfold st_size. rewrite Nat2Z.id, drop_all. simpl. by rewrite Z.max_id. }
  rewrite (observe_classified re_search _ _ f st2 st2 (st_size f));
    [| by rewrite save_state_files | done | by rewrite save_state_files ].
  rewrite Hread2. cbv zeta. simpl config. simpl search_lines.
  assert (<["offset" := VInt (st_size f)]> st2 = st2) as ->.
  { apply insert_id. unfold st2. by rewrite lookup_insert_eq. }
  by rewrite save_state_twice.
Qed.

Lemma second_poll_is_noop_witness :
  observe literal_search w_first o_first
  = (Ok (mkResult false (<["lines_read" := MInt 0]> ∅)), o_first, w_first).
Proof.
  apply (second_poll_is_noop literal_search w_fresh w_first fresh_observer o_first
           (scenario_log (Some [2049; 131])) first_result);
    vm_compute; reflexivity.
Defined.

(** The classifier raises only in the no-rotation branch, and only for a
    stored offset that is not an integer. *)
Lemma detect_and_handle_int_offset fs log rot (st : gmap string pyval) z :
  dict_get st "offset" (VInt 0) = VInt z ->
  exists offset, (detect_and_handle fs log rot st).1 = Ok offset.
Proof.
  intros Ho. unfold detect_and_handle.
  destruct (detect fs log rot st); simpl; eauto.
  unfold no_rotation_handle. rewrite dict_get_offset_refresh, Ho.
  destruct (fs !! log); [destruct (_ <? z)|]; eauto.
Qed.

(** On a file system whose [stat] calls go through, a dictionary state
    with an integer (or absent) offset always gets a result: a missing
    file, an unreadable file and a bad seek all come back as one. *)
Lemma observe_returns_result re_search (w : world) (o : Observer)
    (st : gmap string pyval) z :
  state o = ODict st ->
  dict_get st "offset" (VInt 0) = VInt z ->
  exists r o' w', observe re_search w o = (Ok r, o', w').
Proof.
  intros Hst Ho. unfold observe.
  destruct (files w !! log_file (config o)) as [f|]; [|eauto].
  rewrite Hst.
  destruct (detect_and_handle_int_offset (files w) (log_file (config o))
              (rotated_log_file (config o)) st z Ho) as [offset Hoff].
  destruct (detect_and_handle _ _ _ st) as [r st1]. simpl in Hoff. subst r.
  destruct (read_new_lines f offset) as [[lines new_offset]|e]; eauto.
Qed.

(** X5: with a dictionary state whose offset is an integer (or absent),
    the only exceptions that escape a poll are the [OSError]s that
    [Path.exists()] re-raises for the log file or for its sibling; they
    escape before anything is changed.  When neither path has such an
    error the poll returns a result. *)
Theorem observe_escapes_only_stat_errors stat_errors re_search (w : world) (o : Observer)
    (st : gmap string pyval) z :
  state o = ODict st ->
  dict_get st "offset" (VInt 0) = VInt z ->
  (stat_errors !! log_file (config o) = None ->
   stat_errors !! rotated_log_file (config o) = None ->
   exists r o' w', observe_os stat_errors re_search w o = (Ok r, o', w'))
  /\ (forall e, (observe_os stat_errors re_search w o).1.1 = Raise e ->
        (stat_errors !! log_file (config o) = Some e
         \/ stat_errors !! rotated_log_file (config o) = Some e)
        /\ observe_os stat_errors re_search w o = (Raise e, o, w)).
Proof.
  intros Hst Ho.
  destruct (observe_returns_result re_search w o st z Hst Ho) as (r & o' & w' & Hobs).
  unfold observe_os. split.
  - intros Hlog Hrot. rewrite Hlog, Hrot, Hobs.
    destruct (files w !! log_file (config o)), (state o); eauto.
  - intros e.
    destruct (stat_errors !! log_file (config o)) as [e1|]; simpl.
    { intros [= ->]. eauto. }
    destruct (files w !! log_file (config o)) as [f|]; [rewrite Hst|].
    + destruct (stat_errors !! rotated_log_file (config o)) as [e2|]; simpl.
      * intros [= ->]. eauto.
      * rewrite Hobs. discriminate.
    + rewrite Hobs. discriminate.
Qed.

Lemma observe_escapes_only_stat_errors_witness :
  observe_os stat_denied literal_search w_locked polled_observer
  = (Raise (OSError "Permission denied"), polled_observer, w_locked)
  /\ exists r o' w', observe_os ∅ literal_search w_locked polled_observer = (Ok r, o', w').
Proof.
  split.
  - apply (observe_escapes_only_stat_errors stat_denied literal_search w_locked
             polled_observer (st_baseline 4) 4); vm_compute; reflexivity.
  - apply (observe_escapes_only_stat_errors ∅ literal_search w_locked
             polled_observer (st_baseline 4) 4); vm_compute; reflexivity.
Defined.

(** X6: a stored offset that is [None], a string, a tuple or a list makes
    [observe] raise [TypeError] when both identities are unchanged: the
    comparison with the file size is outside every [try].  The sibling's
    identity has been refreshed in memory by then; nothing is persisted. *)
Theorem observe_non_integer_offset re_search (w : world) (o : Observer)
    (st : gmap string pyval) f :
  files w !! log_file (config o) = Some f ->
  state o = ODict st ->
  (dict_get st "offset" (VInt 0) = VNone
   \/ (exists s, dict_get st "offset" (VInt 0) = VStr s)
   \/ (exists l, dict_get st "offset" (VInt 0) = VTuple l)
   \/ (exists l, dict_get st "offset" (VInt 0) = VList l)) ->
  dict_get st "fingerprint" VNone = get_file_fingerprint (files w) (log_file (config o)) ->
  dict_get st "rotated_fingerprint" VNone
  = current_rotated_fingerprint (files w) (rotated_log_file (config o)) ->
  observe re_search w o
  = (Raise TypeError,
     mkObserver (config o)
       (ODict (<["rotated_fingerprint" :=
                   current_rotated_fingerprint (files w) (rotated_log_file (config o))]> st)),
     w).
Proof.
  intros Hf Hst Ho Hm Hr. unfold observe. rewrite Hf, Hst.
  rewrite (detect_and_handle_no_rotation _ _ _ st Hm Hr).
  unfold no_rotation_handle. rewrite Hf.
  destruct Ho as [->|[[s ->]|[[l ->]|[l ->]]]]; done.
Qed.

Lemma observe_non_integer_offset_witness :
  (observe literal_search w_ten o_null_offset).1.1 = Raise TypeError.
Proof.
  rewrite (observe_non_integer_offset literal_search w_ten o_null_offset
             st_null_offset ten_bytes).
  - reflexivity.
  - vm_compute. reflexivity.
  - reflexivity.
  - left. vm_compute. reflexivity.
  - vm_compute. reflexivity.
  - vm_compute. reflexivity.
Defined.

(** X7: a negative stored offset is never repaired.  With unchanged
    identities the size check lets it through, [seek] raises
    [ValueError], the poll reports the error and persists nothing, and the
    next poll does exactly the same. *)
Theorem negative_offset_is_never_repaired re_search (w : world) (o : Observer)
    (st : gmap string pyval) f z :
  files w !! log_file (config o) = Some f ->
  read_error f = None ->
  state o = ODict st ->
  dict_get st "offset" (VInt 0) = VInt z ->
  z < 0 ->
  dict_get st "fingerprint" VNone = get_file_fingerprint (files w) (log_file (config o)) ->
  dict_get st "rotated_fingerprint" VNone
  = current_rotated_fingerprint (files w) (rotated_log_file (config o)) ->
  exists o',
    observe re_search w o
    = (Ok (mkResult false (<["error" := MErr ValueError]> ∅)), o', w)
    /\ observe re_search w o'
       = (Ok (mkResult false (<["error" := MErr ValueError]> ∅)), o', w).
Proof.
  intros Hf He Hst Ho Hz Hm Hr.
  set (cur := current_rotated_fingerprint (files w) (rotated_log_file (config o))) in *.
  set (st1 := <["rotated_fingerprint" := cur]> st).
  assert (forall s : gmap string pyval,
            dict_get s "offset" (VInt 0) = VInt z ->
            no_rotation_handle (files w) (log_file (config o)) s = Ok z) as Hnr.
  { intros s Hs. unfold no_rotation_handle. rewrite Hf, Hs.
    pose proof (st_size_nonneg f).
    destruct (Z.ltb_spec (st_size f) z); [lia|done]. }
  exists (mkObserver (config o) (ODict st1)). split.
  - rewrite (observe_classified re_search w o f st st1 z Hf Hst).
    + by rewrite (read_new_lines_negative f z He Hz).
    + rewrite (detect_and_handle_no_rotation _ _ _ st Hm Hr). by rewrite (Hnr st Ho).
  - rewrite (observe_classified re_search w (mkObserver (config o) (ODict st1))
               f st1 st1 z Hf eq_refl).
    + by rewrite (read_new_lines_negative f z He Hz).
    + simpl config. rewrite detect_and_handle_no_rotation.
      * rewrite Hnr by (unfold st1; by rewrite dict_get_offset_refresh).
        f_equal. apply insert_id. unfold st1. by rewrite lookup_insert_eq.
      * unfold dict_get, st1. rewrite lookup_insert_ne by done. exact Hm.
      * unfold dict_get, st1. by rewrite lookup_insert_eq.
Qed.

Lemma negative_offset_is_never_repaired_witness :
  exists o',
    observe literal_search w_ten (mkObserver cfg_app (ODict (st_baseline (-3))))
    = (Ok (mkResult false (<["error" := MErr ValueError]> ∅)), o', w_ten)
    /\ observe literal_search w_ten o'
       = (Ok (mkResult false (<["error" := MErr ValueError]> ∅)), o', w_ten).
Proof.
  apply (negative_offset_is_never_repaired literal_search w_ten
           (mkObserver cfg_app (ODict (st_baseline (-3)))) (st_baseline (-3))
           ten_bytes (-3));
    try (vm_compute; reflexivity).
Defined.

(** ** Persisting and reloading *)

Lemma json_round_trip (v : pyval) :
  of_json (to_json v) = match v with VTuple l => VList l | _ => v end.
Proof. by destruct v. Qed.

(** After a poll that went through on a writable world, the state file
    holds the in-memory state, with tuples written as arrays. *)
Lemma reload_after_poll re_search (w w' : world) (o o' : Observer) f r :
  files w !! log_file (config o) = Some f ->
  state_writable w = true ->
  observe re_search w o = (Ok r, o', w') ->
  metadata r !! "error" = None ->
  exists st', state o' = ODict st'
    /\ files w' = files w
    /\ dict_get st' "fingerprint" VNone
       = get_file_fingerprint (files w) (log_file (config o))
    /\ _load_state w' (config o)
       = Ok (ODict ((fun v => match v with VTuple l => VList l | _ => v end) <$> st')).
Proof.
  intros Hf Hw Hobs Herr.
  destruct (observe_success_inv re_search w w' o o' f r Hf Hobs Herr)
    as (st & st1 & offset & lines & Hst & Hd & Hread & Hoff & _ & -> & ->).
  eexists. split; [reflexivity|].
  split; [apply save_state_files|].
  pose proof (detect_and_handle_settled (files w) (log_file (config o))
                (rotated_log_file (config o)) st) as [Hm _].
  rewrite Hd in Hm. simpl in Hm.
  split. { unfold dict_get. by rewrite lookup_insert_ne. }
  set (o' := mkObserver (config o) _).
  change (config o) with (config o').
  rewrite (load_after_save w o' _ eq_refl Hw).
  - f_equal. f_equal. apply map_fmap_ext. intros k v _. apply json_round_trip.
  - rewrite lookup_insert_ne by done.
    pose proof (detect_and_handle_refreshes_rotated (files w) (log_file (config o))
                  (rotated_log_file (config o)) st) as H.
    rewrite Hd in H. simpl in H. by rewrite H.
Qed.

(** X14: on a writable state directory, what a poll persists is its
    in-memory state: loading the state file returns the same dictionary,
    except that tuples have become lists. *)
Theorem persisted_state_round_trip re_search (w w' : world) (o o' : Observer) f r :
  files w !! log_file (config o) = Some f ->
  state_writable w = true ->
  observe re_search w o = (Ok r, o', w') ->
  metadata r !! "error" = None ->
  exists st', state o' = ODict st'
    /\ _load_state w' (config o)
       = Ok (ODict ((fun v => match v with VTuple l => VList l | _ => v end) <$> st')).
Proof.
  intros Hf Hw Hobs Herr.
  destruct (reload_after_poll re_search w w' o o' f r Hf Hw Hobs Herr)
    as (st' & ? & _ & _ & ?).
  by exists st'.
Qed.

Lemma persisted_state_round_trip_witness :
  exists st', state o_first = ODict st'
    /\ _load_state w_first (config fresh_observer)
       = Ok (ODict ((fun v => match v with VTuple l => VList l | _ => v end) <$> st')).
Proof.
  apply (persisted_state_round_trip literal_search w_fresh w_first fresh_observer
           o_first (scenario_log (Some [2049; 131])) first_result);
    vm_compute; reflexivity.
Defined.

(** X8: a restart discards the offset.  The fingerprint tuple is
    persisted as a JSON array and loaded back as a list, which never
    equals the tuple computed for the same file; the first poll of an
    observer built from the saved state therefore takes the move-create
    branch and reads the whole file again. *)
Theorem restart_rereads_whole_file re_search (w w1 : world) (o o1 : Observer) f t r :
  files w !! log_file (config o) = Some f ->
  identity f = Some t ->
  read_error f = None ->
  state_writable w = true ->
  observe re_search w o = (Ok r, o1, w1) ->
  metadata r !! "error" = None ->
  exists o2 st2 o3 w3,
    new_Observer w1 (config o) = Ok o2
    /\ state o2 = ODict st2
    /\ detect (files w1) (log_file (config o)) (rotated_log_file (config o)) st2
       = MoveCreateRotationHandler
    /\ observe re_search w1 o2
       = (Ok (report o
                (split_lines (translate_newlines (utf8_decode_ignore (content f))))
                (search_lines re_search (patterns (config o))
                   (split_lines (translate_newlines (utf8_decode_ignore (content f)))))),
          o3, w3).
Proof.
  intros Hf Hid He Hw Hobs Herr.
  destruct (reload_after_poll re_search w w1 o o1 f r Hf Hw Hobs Herr)
    as (st' & Hst' & Hfiles & Hfp & Hload).
  set (st2 := (fun v => match v with VTuple l => VList l | _ => v end) <$> st') in *.
  assert (get_file_fingerprint (files w) (log_file (config o)) = VTuple t) as Hcur.
  { unfold get_file_fingerprint. by rewrite Hf, Hid. }
  assert (dict_get st2 "fingerprint" VNone = VList t) as Hstored.
  { unfold dict_get in *. unfold st2. rewrite lookup_fmap.
    rewrite Hcur in Hfp. destruct (st' !! "fingerprint") as [v|]; simpl in *; by subst. }
  assert (dict_get st2 "fingerprint" VNone
          <> get_file_fingerprint (files w1) (log_file (config o))) as Hne.
  { rewrite Hfiles, Hcur, Hstored. done. }
  exists (mkObserver (config o) (ODict st2)), st2.
  eexists _, _.
  split. { unfold new_Observer. by rewrite Hload. }
  split; [done|].
  split. { by apply detect_move_create. }
  rewrite (observe_classified re_search w1 (mkObserver (config o) (ODict st2)) f st2
             (<["fingerprint" := get_file_fingerprint (files w1) (log_file (config o))]>
                (<["rotated_fingerprint" :=
                     current_rotated_fingerprint (files w1) (rotated_log_file (config o))]>
                   st2)) 0);
    [| by rewrite Hfiles | done | by apply detect_and_handle_move_create ].
  rewrite (read_new_lines_ok f 0 He) by done. simpl drop.
  cbv zeta. reflexivity.
Qed.

Lemma restart_rereads_whole_file_witness :
  exists o2 st2 o3 w3,
    new_Observer w_first (config fresh_observer) = Ok o2
    /\ state o2 = ODict st2
    /\ detect (files w_first) (log_file (config fresh_observer))
         (rotated_log_file (config fresh_observer)) st2
       = MoveCreateRotationHandler
    /\ observe literal_search w_first o2
       = (Ok (report fresh_observer
                (split_lines (translate_newlines
                   (utf8_decode_ignore (content (scenario_log (Some [2049; 131]))))))
                (search_lines literal_search (patterns (config fresh_observer))
                   (split_lines (translate_newlines
                      (utf8_decode_ignore (content (scenario_log (Some [2049; 131])))))))),
          o3, w3).
Proof.
  apply (restart_rereads_whole_file literal_search w_fresh w_first
           fresh_observer o_first (scenario_log (Some [2049; 131]))
           [2049; 131] first_result);
    vm_compute; reflexivity.
Defined.

(** X15: a state file holding a JSON object always loads: the result has
    every stored key with its stored value and always has a
    ["rotated_fingerprint"] key, which is [None] when the file (written by
    an older version) lacks it.  Missing ["offset"] or ["fingerprint"]
    keys are not filled in. *)
Theorem load_state_object_keys (w : world) (cfg : Config) (j : gmap string jval) :
  state_files w !! state_file_path cfg = Some (SFJson (JObject j)) ->
  exists st,
    _load_state w cfg = Ok (ODict st)
    /\ st !! "rotated_fingerprint"
       = Some (default VNone (of_json <$> j !! "rotated_fingerprint"))
    /\ forall k : string, k <> "rotated_fingerprint" -> st !! k = of_json <$> j !! k.
Proof.
  intros H. rewrite (load_state_object w cfg j H).
  eexists. split; [reflexivity|].
  destruct (j !! "rotated_fingerprint") as [v|] eqn:Hj; simpl.
  - split; [by rewrite lookup_fmap, Hj|]. intros k _. by rewrite lookup_fmap.
  - split; [by rewrite lookup_insert_eq|].
    intros k Hk. by rewrite lookup_insert_ne, lookup_fmap.
Qed.

Lemma load_state_object_keys_witness :
  exists st,
    _load_state w_legacy cfg_app = Ok (ODict st)
    /\ st !! "rotated_fingerprint" = Some VNone
    /\ st !! "offset" = Some (VInt 5)
    /\ st !! "fingerprint" = None.
Proof.
  destruct (load_state_object_keys w_legacy cfg_app {[ "offset" := JInt 5 ]})
    as (st & Hload & Hrot & Hkeys); [vm_compute; reflexivity|].
  exists st. split; [exact Hload|]. split; [exact Hrot|].
  split; rewrite Hkeys by done; vm_compute; reflexivity.
Defined.

(** ** The match engine *)

Lemma any_pattern_existsb re_search (ps : list text) (line : text) :
  any_pattern re_search ps line = existsb (fun p => re_search p line) ps.
Proof.
  induction ps as [|p ps IH]; simpl; [done|]. rewrite IH.
  by destruct (re_search p line).
Qed.

Lemma search_lines_as_filter re_search (ps : list text) (lines : list text) :
  search_lines re_search ps lines
  = strip <$> filter (fun line => any_pattern re_search ps line = true) lines.
Proof.
  induction lines as [|l ls IH]; simpl; [done|].
  rewrite filter_cons. destruct (any_pattern re_search ps l) eqn:Hl.
  - rewrite decide_True by done. simpl. by rewrite IH.
  - rewrite decide_False by done. exact IH.
Qed.

(** X9: the matched lines are the stripped copies of exactly the lines
    that some pattern matches, in file order; a line matching several
    patterns is reported once, so there are never more matches than
    lines. *)
Theorem matched_lines_filter re_search (ps : list text) (lines : list text) :
  search_lines re_search ps lines
  = strip <$> filter (fun line => existsb (fun p => re_search p line) ps = true) lines
  /\ (length (search_lines re_search ps lines) <= length lines)%nat.
Proof.
  assert (search_lines re_search ps lines
          = strip <$> filter (fun line => existsb (fun p => re_search p line) ps = true) lines)
    as Heq.
  { rewrite search_lines_as_filter. f_equal. apply list_filter_iff.
    intros line. by rewrite any_pattern_existsb. }
  split; [exact Heq|]. rewrite Heq, length_fmap. apply length_filter.
Qed.

(** X10: a poll that read the file reports [True] exactly when some line
    it read matches some pattern; the metadata is then the matched lines
    and the log path, and otherwise the number of lines read. *)
Theorem observe_verdict re_search (w w' : world) (o o' : Observer) f r :
  files w !! log_file (config o) = Some f ->
  observe re_search w o = (Ok r, o', w') ->
  metadata r !! "error" = None ->
  exists offset lines,
    read_new_lines f offset = Ok (lines, st_size f)
    /\ (value r = true
        <-> exists line, line ∈ lines
              /\ any_pattern re_search (patterns (config o)) line = true)
    /\ (value r = true ->
        metadata r
        = <["matched_lines" :=
              MLines (search_lines re_search (patterns (config o)) lines)]>
            (<["log_file" := MStr (log_file (config o))]> ∅))
    /\ (value r = false ->
        metadata r = <["lines_read" := MInt (Z.of_nat (length lines))]> ∅).
Proof.
  intros Hf Hobs Herr.
  destruct (observe_success_inv re_search w w' o o' f r Hf Hobs Herr)
    as (st & st1 & offset & lines & Hst & Hd & Hread & Hoff & -> & _ & _).
  exists offset, lines. split; [done|].
  unfold report.
  destruct (search_lines re_search (patterns (config o)) lines) as [|m ms] eqn:Hs; simpl.
  - split; [|split; [done|done]]. split; [done|].
    intros (line & Hin & Hmatch). exfalso.
    assert (strip line ∈ search_lines re_search (patterns (config o)) lines) as Hmem.
    { rewrite search_lines_as_filter. apply list_elem_of_fmap_2.
      by apply list_elem_of_filter. }
    rewrite Hs in Hmem. by apply elem_of_nil in Hmem.
  - split; [|split; [done|done]]. split; [|done]. intros _.
    assert (m ∈ search_lines re_search (patterns (config o)) lines) as Hmem.
    { rewrite Hs. left. }
    destruct (search_lines_elem _ _ _ _ Hmem) as (line & ? & ? & _). eauto.
Qed.

Lemma observe_verdict_witness :
  exists offset lines,
    read_new_lines (scenario_log (Some [2049; 131])) offset = Ok (lines, 28)
    /\ (value first_result = true
        <-> exists line, line ∈ lines /\ any_pattern literal_search [str "ERROR"] line = true).
Proof.
  destruct (observe_verdict literal_search w_fresh w_first fresh_observer o_first
              (scenario_log (Some [2049; 131])) first_result)
    as (offset & lines & Hread & Hiff & _);
    try (vm_compute; reflexivity).
  exists offset, lines. split; assumption.
Defined.

(** ** The world around a poll *)

(** X11: a state directory that cannot be written does not abort the
    poll: the world is left as it was, and the result and the in-memory
    state are the same as on a writable directory. *)
Theorem failed_save_does_not_abort re_search (w : world) (o : Observer) :
  state_writable w = false ->
  (observe re_search w o).2 = w
  /\ (observe re_search w o).1
     = (observe re_search (mkWorld (files w) (state_files w) true) o).1.
Proof.
  intros Hw. unfold observe. simpl.
  destruct (files w !! log_file (config o)) as [f|]; [|done].
  destruct (state o) as [st|v]; [|done].
  destruct (detect_and_handle _ _ _ st) as [[offset|e] st1]; [|done].
  destruct (read_new_lines f offset) as [[lines new_offset]|e]; [|done].
  simpl. split; [|done]. unfold _save_state. by rewrite Hw.
Qed.

Lemma failed_save_does_not_abort_witness :
  (observe literal_search w_unwritable fresh_observer).2 = w_unwritable
  /\ (observe literal_search w_unwritable fresh_observer).1
     = (observe literal_search
          (mkWorld (files w_unwritable) (state_files w_unwritable) true)
          fresh_observer).1.
Proof.
  apply (failed_save_does_not_abort literal_search w_unwritable fresh_observer).
  reflexivity.
Defined.

(** ** Appending to the log *)

Lemma append_suffix_ne (s t : string) : t <> EmptyString -> (s +:+ t)%string <> s.
Proof.
  intros Ht. induction s as [|a s IH]; simpl.
  - exact Ht.
  - intros [= H]. by apply IH.
Qed.

Lemma rotated_log_file_ne (cfg : Config) : rotated_log_file cfg <> log_file cfg.
Proof. unfold rotated_log_file. by apply append_suffix_ne. Qed.

Lemma append_bytes_main (w : world) (path : string) (data : bytes) f :
  files w !! path = Some f ->
  files (append_bytes w path data) !! path
  = Some (File (identity f) (content f ++ data) (read_error f)).
Proof. intros Hf. unfold append_bytes. simpl. by rewrite lookup_alter_eq, Hf. Qed.

Lemma append_bytes_other (w : world) (path other : string) (data : bytes) :
  other <> path ->
  files (append_bytes w path data) !! other = files w !! other.
Proof. intros Hne. unfold append_bytes. simpl. by rewrite lookup_alter_ne. Qed.

(** Appending changes neither identity. *)
Lemma append_bytes_fingerprints (w : world) (cfg : Config) (data : bytes) f :
  files w !! log_file cfg = Some f ->
  get_file_fingerprint (files (append_bytes w (log_file cfg) data)) (log_file cfg)
  = get_file_fingerprint (files w) (log_file cfg)
  /\ current_rotated_fingerprint (files (append_bytes w (log_file cfg) data))
       (rotated_log_file cfg)
     = current_rotated_fingerprint (files w) (rotated_log_file cfg).
Proof.
  intros Hf. split.
  - unfold get_file_fingerprint. by rewrite (append_bytes_main w _ data f Hf), Hf.
  - unfold current_rotated_fingerprint, get_file_fingerprint.
    by rewrite append_bytes_other by apply rotated_log_file_ne.
Qed.

(** X13: after a poll that read the file, whatever bytes are appended to
    it are exactly what the next poll reads: its lines are the lines of
    the appended bytes alone, and the stored offset advances by their
    number. *)
Theorem appended_bytes_are_read re_search (w w1 : world) (o o1 : Observer) f r
    (data : bytes) :
  files w !! log_file (config o) = Some f ->
  observe re_search w o = (Ok r, o1, w1) ->
  metadata r !! "error" = None ->
  exists o2 st2,
    observe re_search (append_bytes w1 (log_file (config o)) data) o1
    = (Ok (report o
             (split_lines (translate_newlines (utf8_decode_ignore data)))
             (search_lines re_search (patterns (config o))
                (split_lines (translate_newlines (utf8_decode_ignore data))))),
       o2, _save_state (append_bytes w1 (log_file (config o)) data) o2)
    /\ state o2 = ODict st2
    /\ st2 !! "offset" = Some (VInt (st_size f + Z.of_nat (length data))).
Proof.
  intros Hf Hobs Herr.
  destruct (observe_success_inv re_search w w1 o o1 f r Hf Hobs Herr)
    as (st & st1 & offset & lines & Hst & Hd & Hread & Hoff & _ & -> & ->).
  destruct (read_new_lines_inv f offset lines _ Hread) as (He & _ & _ & _).
  set (st2 := <["offset" := VInt (st_size f)]> st1).
  set (o1 := mkObserver (config o) (ODict st2)).
  set (w1 := _save_state w o1).
  set (f' := File (identity f) (content f ++ data) (read_error f)).
  assert (files w1 !! log_file (config o) = Some f) as Hf1.
  { unfold w1. by rewrite save_state_files. }
  pose proof (append_bytes_main w1 _ data f Hf1) as Hf2. fold f' in Hf2.
  destruct (append_bytes_fingerprints w1 (config o) data f Hf1) as [Hfp Hrot].
  unfold w1 in Hfp at 2, Hrot at 2. rewrite save_state_files in Hfp, Hrot.
  pose proof (detect_and_handle_settled (files w) (log_file (config o))
                (rotated_log_file (config o)) st) as [Hm Hr].
  rewrite Hd in Hm, Hr. simpl in Hm, Hr.
  assert (st_size f' = st_size f + Z.of_nat (length data)) as Hsize.
  { unfold st_size, f'. simpl. rewrite length_app. lia. }
  assert (detect_and_handle (files (append_bytes w1 (log_file (config o)) data))
            (log_file (config o)) (rotated_log_file (config o)) st2
          = (Ok (st_size f), st2)) as Hd2.
  { rewrite detect_and_handle_no_rotation.
    - unfold no_rotation_handle, dict_get. rewrite Hf2. unfold st2 at 1.
      rewrite lookup_insert_eq. simpl.
      destruct (Z.ltb_spec (st_size f') (st_size f)); [lia|].
      f_equal. apply insert_id. unfold st2. rewrite lookup_insert_ne by done.
      change (alter _ _ (files w1))
        with (files (append_bytes w1 (log_file (config o)) data)).
      rewrite Hrot.
      pose proof (detect_and_handle_refreshes_rotated (files w) (log_file (config o))
                    (rotated_log_file (config o)) st) as Hrf.
      by rewrite Hd in Hrf.
    - rewrite Hfp. unfold dict_get, st2. by rewrite lookup_insert_ne.
    - rewrite Hrot. unfold dict_get, st2. by rewrite lookup_insert_ne. }
  assert (read_new_lines f' (st_size f)
          = Ok (split_lines (translate_newlines (utf8_decode_ignore data)), st_size f'))
    as Hread2.
  { rewrite read_new_lines_ok by (try done; apply st_size_nonneg).
    unfold f' at 1. simpl content. unfold st_size at 1.
    rewrite Nat2Z.id, drop_app_length. f_equal. f_equal. lia. }
  exists (mkObserver (config o) (ODict (<["offset" := VInt (st_size f')]> st2))),
    (<["offset" := VInt (st_size f')]> st2).
  split; [|split; [reflexivity|]].
  - rewrite (observe_classified re_search _ o1 f' st2 st2 (st_size f) Hf2 eq_refl Hd2).
    rewrite Hread2. cbv zeta. reflexivity.
  - rewrite lookup_insert_eq. by rewrite Hsize.
Qed.

Lemma appended_bytes_are_read_witness :
  exists o2 st2,
    observe literal_search (append_bytes w_first app_log (encode line_4)) o_first
    = (Ok (mkResult true
             (<["matched_lines" := MLines [str "ERROR: line 4"]]>
                (<["log_file" := MStr app_log]> ∅))),
       o2, _save_state (append_bytes w_first app_log (encode line_4)) o2)
    /\ state o2 = ODict st2
    /\ st2 !! "offset" = Some (VInt 42).
Proof.
  apply (appended_bytes_are_read literal_search w_fresh w_first fresh_observer o_first
           (scenario_log (Some [2049; 131])) first_result (encode line_4));
    vm_compute; reflexivity.
Defined.

(** ** The whole-file observer *)

Lemma matching_patterns_as_filter re_search (ps : list text) (content : text) :
  matching_patterns re_search ps content
  = filter (fun p => re_search p content = true) ps.
Proof.
  induction ps as [|p ps IH]; simpl; [done|].
  rewrite filter_cons. destruct (re_search p content) eqn:Hp.
  - rewrite decide_True by done. by rewrite IH.
  - rewrite decide_False by done. exact IH.
Qed.

(** X16: the whole-file observer reports [True] exactly when some
    configured pattern is found in the text of the file; its metadata
    lists the patterns found, in configuration order, and the number of
    configured patterns. *)
Theorem log_pattern_verdict re_search (fs : gmap string file) (cfg : Config) f :
  fs !! log_file cfg = Some f ->
  read_error f = None ->
  (value (log_pattern_observe re_search fs cfg) = true
   <-> exists p, p ∈ patterns cfg
         /\ re_search p (translate_newlines (utf8_decode_ignore (content f))) = true)
  /\ metadata (log_pattern_observe re_search fs cfg)
     = <["matched_patterns" :=
           MLines (filter
                     (fun p => re_search p
                                 (translate_newlines (utf8_decode_ignore (content f))) = true)
                     (patterns cfg))]>
         (<["total_patterns" := MInt (Z.of_nat (length (patterns cfg)))]>
            (<["log_file" := MStr (log_file cfg)]> ∅)).
Proof.
  intros Hf He. unfold log_pattern_observe, read_text, open_text. rewrite Hf, He. simpl.
  rewrite matching_patterns_as_filter. split; [|done].
  set (P := fun p => re_search p _ = true).
  destruct (filter P (patterns cfg)) as [|m ms] eqn:Hfl; simpl.
  - split; [done|]. intros (p & Hin & Hp).
    assert (p ∈ filter P (patterns cfg)) as Hmem by by apply list_elem_of_filter.
    rewrite Hfl in Hmem. by apply elem_of_nil in Hmem.
  - split; [|done]. intros _.
    assert (m ∈ filter P (patterns cfg)) as Hmem by (rewrite Hfl; left).
    apply list_elem_of_filter in Hmem as [? ?]. by exists m.
Qed.

Lemma log_pattern_verdict_witness :
  value (log_pattern_observe literal_search (files w_fresh) cfg_app) = true
  /\ metadata (log_pattern_observe literal_search (files w_fresh) cfg_app)
       !! "matched_patterns"
     = Some (MLines [str "ERROR"]).
Proof.
  destruct (log_pattern_verdict literal_search (files w_fresh) cfg_app
              (scenario_log (Some [2049; 131]))) as [Hiff Hmeta];
    try (vm_compute; reflexivity).
  split.
  - apply Hiff. exists (str "ERROR"). split; [left|vm_compute; reflexivity].
  - rewrite Hmeta. vm_compute. reflexivity.
Defined.

(** ** The pattern-match evaluator *)

(** A result of the tailing observer never carries a ["matched_patterns"]
    entry. *)
Lemma observe_no_matched_patterns re_search (w w' : world) (o o' : Observer) r :
  observe re_search w o = (Ok r, o', w') ->
  metadata r !! "matched_patterns" = None.
Proof.
  unfold observe. intros Hobs.
  destruct (files w !! log_file (config o)) as [f|].
  2:{ by injection Hobs as <- _ _. }
  destruct (state o) as [st|v]; [|discriminate].
  destruct (detect_and_handle _ _ _ st) as [[offset|e] st1]; [|discriminate].
  destruct (read_new_lines f offset) as [[lines new_offset]|e].
  2:{ by injection Hobs as <- _ _. }
  injection Hobs as <- _ _. unfold report.
  by destruct (search_lines _ _ _).
Qed.

(** X17: on a result of the tailing observer the pattern-match evaluator
    never raises; it alerts exactly when the result's value is [True],
    and its message is then the bare prefix ["Pattern matched: "], since
    the tailing observer's metadata has no ["matched_patterns"] entry. *)
Theorem evaluator_on_tailer_result exn_str re_search (w w' : world) (o o' : Observer) r
    (ecfg : gmap string pyval) (history : list ObservationResult) :
  observe re_search w o = (Ok r, o', w') ->
  pattern_match_evaluate exn_str ecfg r history
  = Ok (mkDecision (value r) (dict_get ecfg "severity" (VStr "medium"))
          (if value r then str "Pattern matched: " else str "No pattern match")
          (metadata r)).
Proof.
  intros Hobs. unfold pattern_match_evaluate.
  rewrite (observe_no_matched_patterns re_search w w' o o' r Hobs).
  destruct (value r); reflexivity.
Qed.

Lemma evaluator_on_tailer_result_witness :
  pattern_match_evaluate exn_name ∅ first_result []
  = Ok (mkDecision true (VStr "medium") (str "Pattern matched: ") (metadata first_result)).
Proof.
  rewrite (evaluator_on_tailer_result exn_name literal_search w_fresh w_first
             fresh_observer o_first first_result ∅ []).
  - vm_compute. reflexivity.
  - vm_compute. reflexivity.
Defined.

(** X18: on a result of the whole-file observer the pattern-match
    evaluator never raises; it alerts exactly when the observer reported
    a match, passes the metadata on as context, and its message lists the
    patterns found, separated by [", "]. *)
Theorem evaluator_on_whole_file_result exn_str re_search (fs : gmap string file)
    (cfg : Config) (ecfg : gmap string pyval) (history : list ObservationResult) :
  exists d,
    pattern_match_evaluate exn_str ecfg (log_pattern_observe re_search fs cfg) history = Ok d
    /\ should_alert d = value (log_pattern_observe re_search fs cfg)
    /\ context d = metadata (log_pattern_observe re_search fs cfg)
    /\ (should_alert d = true ->
        exists f, fs !! log_file cfg = Some f
          /\ message d
             = str "Pattern matched: "
               ++ py_join (str ", ")
                    (filter
                       (fun p => re_search p
                          (translate_newlines (utf8_decode_ignore (content f))) = true)
                       (patterns cfg))).
Proof.
  unfold pattern_match_evaluate, log_pattern_observe.
  destruct (fs !! log_file cfg) as [f|]; simpl.
  2:{ eexists. repeat split; try done. }
  destruct (read_text f) as [txt|e] eqn:Hread; simpl.
  2:{ eexists. repeat split; try done. }
  assert (txt = translate_newlines (utf8_decode_ignore (content f))) as ->.
  { unfold read_text, open_text in Hread. destruct (read_error f); [discriminate|].
    simpl in Hread. by injection Hread as <-. }
  rewrite matching_patterns_as_filter.
  destruct (0 <? _) eqn:Hpos; simpl.
  - rewrite lookup_insert_eq. simpl. eexists. repeat split; try done.
    intros _. by exists f.
  - eexists. repeat split; try done.
Qed.

(** ** The watcher's check cycle *)

Section CheckProperties.

Context {O E : Type}.
Variable exn_str : exn -> string.
Variable observer_observe : world -> O -> result ObservationResult * O * world.
Variable evaluator_evaluate :
  E -> ObservationResult -> list ObservationResult -> result AlertDecision.

Lemma recent_history_length (history : list ObservationResult) :
  (length (recent_history history) <= 100)%nat.
Proof. unfold recent_history. rewrite length_drop. lia. Qed.

(** What a check that returns went through. *)
Lemma check_ok_inv (h h' : host) (c c' : WatcherCoordinator O E) d :
  check exn_str observer_observe evaluator_evaluate h c = (Ok d, c', h') ->
  exists observation observer1 w1 decision,
    observer_observe (os_world h) (c_observer c) = (Ok observation, observer1, w1)
    /\ evaluator_evaluate (c_evaluator c) observation (c_history c) = Ok decision
    /\ mkdir_error h = None
    /\ d = (if should_alert decision then Some decision else None)
    /\ c' = mkCoordinator (c_name c) observer1 (c_evaluator c) (c_state_dir c)
              (c_history c ++ [observation])
    /\ Ok h' = _save_history exn_str
                 (mkHost w1 (history_files h) (mkdir_error h) (history_writable h)) c'.
Proof.
  unfold check. intros H.
  destruct (observer_observe _ _) as [[[observation|e] observer1] w1]; [|discriminate].
  destruct (evaluator_evaluate _ _ _) as [decision|e] eqn:Hev; [|discriminate].
  destruct (_save_history _ _ _) as [h2|e] eqn:Hsave; [|discriminate].
  injection H as <- <- <-.
  exists observation, observer1, w1, decision.
  assert (mkdir_error h = None) as Hmk.
  { unfold _save_history in Hsave. simpl in Hsave.
    by destruct (mkdir_error h). }
  by rewrite Hsave.
Qed.

(** X19: a check that returns has evaluated the new observation against
    the history from before it, has appended exactly that observation to
    the history, and returns the decision exactly when it says to alert. *)
Theorem check_appends_observation (h h' : host) (c c' : WatcherCoordinator O E) d :
  check exn_str observer_observe evaluator_evaluate h c = (Ok d, c', h') ->
  exists observation decision,
    (observer_observe (os_world h) (c_observer c)).1.1 = Ok observation
    /\ evaluator_evaluate (c_evaluator c) observation (c_history c) = Ok decision
    /\ c_history c' = c_history c ++ [observation]
    /\ (d = Some decision <-> should_alert decision = true)
    /\ (d = None <-> should_alert decision = false).
Proof.
  intros H. destruct (check_ok_inv h h' c c' d H)
    as (observation & observer1 & w1 & decision & Hobs & Hev & _ & -> & -> & _).
  exists observation, decision. rewrite Hobs. repeat split; try done;
    destruct (should_alert decision); try done.
Qed.

(** X20: after a check on a writable history file, the file holds the
    last 100 observations of the in-memory history at most, and a
    coordinator created afterwards starts from exactly those. *)
Theorem persisted_history_is_recent (h h' : host) (c c' : WatcherCoordinator O E) d :
  check exn_str observer_observe evaluator_evaluate h c = (Ok d, c', h') ->
  history_writable h = true ->
  exists items,
    history_files h' !! history_file_path c = Some (HFItems items)
    /\ items = as_json exn_str <$> drop (length (c_history c') - 100) (c_history c')
    /\ (length items <= 100)%nat
    /\ c_history (new_WatcherCoordinator h' (c_name c) (c_observer c')
                    (c_evaluator c) (c_state_dir c))
       = items.
Proof.
  intros H Hw. destruct (check_ok_inv h h' c c' d H)
    as (observation & observer1 & w1 & decision & Hobs & Hev & Hmk & -> & -> & Hsave).
  unfold _save_history in Hsave. simpl in Hsave. rewrite Hmk, Hw in Hsave.
  injection Hsave as ->.
  eexists. split.
  { simpl. unfold history_file_path at 1. simpl. by rewrite lookup_insert_eq. }
  split; [done|]. split.
  { rewrite length_fmap. apply recent_history_length. }
  unfold new_WatcherCoordinator, _load_history. simpl.
  unfold history_file_path at 1. simpl.
  unfold history_file_path at 1. simpl. by rewrite lookup_insert_eq.
Qed.

End CheckProperties.

Lemma check_appends_observation_witness :
  exists observation decision,
    (observe literal_search (os_world h_fresh) (c_observer c_fresh)).1.1 = Ok observation
    /\ pattern_match_evaluate exn_name (c_evaluator c_fresh) observation (c_history c_fresh)
       = Ok decision
    /\ c_history c_checked = c_history c_fresh ++ [observation]
    /\ (Some d_checked = Some decision <-> should_alert decision = true)
    /\ (Some d_checked = None <-> should_alert decision = false).
Proof.
  apply (check_appends_observation exn_name (observe literal_search)
           (pattern_match_evaluate exn_name) h_fresh h_checked c_fresh c_checked
           (Some d_checked)).
  vm_compute. reflexivity.
Defined.

Lemma persisted_history_is_recent_witness :
  exists items,
    history_files h_checked !! history_file_path c_fresh = Some (HFItems items)
    /\ items = as_json exn_name
                 <$> drop (length (c_history c_checked) - 100) (c_history c_checked)
    /\ (length items <= 100)%nat
    /\ c_history (new_WatcherCoordinator h_checked (c_name c_fresh)
                    (c_observer c_checked) (c_evaluator c_fresh) (c_state_dir c_fresh))
       = items.
Proof.
  apply (persisted_history_is_recent exn_name (observe literal_search)
           (pattern_match_evaluate exn_name) h_fresh h_checked c_fresh c_checked
           (Some d_checked)).
  - vm_compute. reflexivity.
  - reflexivity.
Defined.

(** X21: a watcher made of the tailing observer and the pattern-match
    evaluator: whenever the poll returns a result and the state directory
    can be created, the check returns too; it alerts exactly when the
    poll's value is [True], with the bare message, and appends the
    observation to the history. *)
Theorem tailer_watcher_check exn_str re_search (h : host)
    (c : WatcherCoordinator Observer (gmap string pyval)) r o' w' :
  observe re_search (os_world h) (c_observer c) = (Ok r, o', w') ->
  mkdir_error h = None ->
  exists h',
    check exn_str (observe re_search) (pattern_match_evaluate exn_str) h c
    = (Ok (if value r
           then Some (mkDecision true
                        (dict_get (c_evaluator c) "severity" (VStr "medium"))
                        (str "Pattern matched: ") (metadata r))
           else None),
       mkCoordinator (c_name c) o' (c_evaluator c) (c_state_dir c) (c_history c ++ [r]),
       h')
    /\ os_world h' = w'.
Proof.
  intros Hobs Hmk. unfold check. rewrite Hobs.
  assert (pattern_match_evaluate exn_str (c_evaluator c) r (c_history c)
          = Ok (mkDecision (value r) (dict_get (c_evaluator c) "severity" (VStr "medium"))
                  (if value r then str "Pattern matched: " else str "No pattern match")
                  (metadata r))) as ->.
  { unfold pattern_match_evaluate.
    rewrite (observe_no_matched_patterns re_search _ _ _ _ r Hobs).
    destruct (value r); reflexivity. }
  unfold _save_history. simpl. rewrite Hmk.
  destruct (history_writable h); destruct (value r); simpl; eauto.
Qed.

Lemma tailer_watcher_check_witness :
  exists h',
    check exn_name (observe literal_search) (pattern_match_evaluate exn_name)
      h_fresh c_fresh
    = (Ok (if value first_result
           then Some (mkDecision true
                        (dict_get (c_evaluator c_fresh) "severity" (VStr "medium"))
                        (str "Pattern matched: ") (metadata first_result))
           else None),
       mkCoordinator (c_name c_fresh) o_first (c_evaluator c_fresh)
         (c_state_dir c_fresh) (c_history c_fresh ++ [first_result]),
       h')
    /\ os_world h' = w_first.
Proof.
  apply (tailer_watcher_check exn_name literal_search h_fresh c_fresh
           first_result o_first w_first).
  - vm_compute. reflexivity.
  - reflexivity.
Defined.
